(** * cdnizer: a shallow embedding of [src/main.rs]

    The program walks the current directory depth first and writes an
    [index.json] and an [index.html] listing into every directory.  This
    file embeds the path helpers ([ToWebPath], [ToBreadcrumbs], [ignore],
    [icon]), [Entry::new], [generate_index] and the asset provisioning of
    [main], and proves the properties of the specification about them. *)

From Stdlib Require Import List String Ascii ZArith Bool Lia.
From Stdlib Require Import Sorting.Sorted Sorting.Permutation.
Import ListNotations.
Open Scope string_scope.
Open Scope list_scope.
#[local] Set Warnings "-register-all".

(* ================================================================== *)
(** ** Paths (Unix flavour of [std::path]) *)

(** [std::path::Component], without the Windows-only [Prefix]. *)
Inductive component : Type :=
| RootDir
| CurDir
| ParentDir
| Normal (s : string).

(** A [Path] value is observed by the program only through its
    components: [Path] equality, [parent], [file_name] and [extension] all
    go through [Path::components]. *)
Definition path := list component.

(** Splitting a string at every ['/'] (always at least one segment). *)
Fixpoint split_slash (s : string) : list string :=
  match s with
  | EmptyString => [EmptyString]
  | String c s' =>
      match split_slash s' with
      | [] => []
      | seg :: segs =>
          if Ascii.eqb c "/" then EmptyString :: seg :: segs
          else String c seg :: segs
      end
  end.

(** The body of [Components::next]: empty and ["."] segments are skipped,
    [".."] is [ParentDir], anything else is [Normal]. *)
Definition body_component (seg : string) : list component :=
  if seg =? "" then []
  else if seg =? "." then []
  else if seg =? ".." then [ParentDir]
  else [Normal seg].

Definition body (s : string) : list component :=
  flat_map body_component (split_slash s).

(** [Path::components]: a leading ['/'] is [RootDir]; an unrooted path
    that is exactly ["."] or starts with ["./"] begins with [CurDir]. *)
Definition components (s : string) : path :=
  match s with
  | String c rest =>
      if Ascii.eqb c "/" then RootDir :: body rest
      else if Ascii.eqb c "." then
        match rest with
        | EmptyString => [CurDir]
        | String d rest' => if Ascii.eqb d "/" then CurDir :: body rest' else body s
        end
      else body s
  | EmptyString => body s
  end.

(** [Path::file_name]: the last component, when it is a normal one. *)
Definition file_name (p : path) : option string :=
  match last (map Some p) None with
  | Some (Normal s) => Some s
  | _ => None
  end.

(** Splitting at the last ['.']: [Some (before, after)], or [None] when
    the string has no dot. *)
Fixpoint rsplit_dot (s : string) : option (string * string) :=
  match s with
  | EmptyString => None
  | String c s' =>
      match rsplit_dot s' with
      | Some (b, a) => Some (String c b, a)
      | None => if Ascii.eqb c "." then Some (EmptyString, s') else None
      end
  end.

(** [rsplit_file_at_dot] followed by [before.and(after)], as
    [Path::extension] does. *)
Definition extension_of_file_name (f : string) : option string :=
  if f =? ".." then None
  else match rsplit_dot f with
       | None => None
       | Some (b, a) => if b =? "" then None else Some a
       end.

Definition extension (p : path) : option string :=
  match file_name p with
  | Some f => extension_of_file_name f
  | None => None
  end.

(** [Path::parent]: drops a trailing normal, current or parent component;
    a path ending in the root, or the empty path, has no parent. *)
Definition parent (p : path) : option path :=
  match last (map Some p) None with
  | Some (Normal _) | Some CurDir | Some ParentDir => Some (removelast p)
  | _ => None
  end.

(** [impl ToWebPath for Path]: normal components kept, every other
    component mapped to the empty string, empty strings filtered out, the
    rest joined with ["/"]. *)
Definition web_segment (c : component) : string :=
  match c with
  | Normal s => s
  | _ => ""
  end.

Definition to_web_path (p : path) : string :=
  String.concat "/"
    (filter (fun s => negb (s =? "")) (map web_segment p)).

(** [Breadcrumb] *)
Record Breadcrumb : Type := mkBreadcrumb {
  b_name : string;
  b_path : string;
}.

Definition path_eqb (p q : path) : bool :=
  if list_eq_dec
       (fun a b : component =>
          ltac:(decide equality; apply string_dec)) p q
  then true else false.

(** The loop of [impl ToBreadcrumbs for Path] before the final
    [reverse]: stop at a path equal to ["."], otherwise push a crumb and
    continue with the parent.  [fuel] bounds the iterations; every
    iteration shortens the path, so [length p + 1] is enough (see
    [to_breadcrumbs]). *)
Fixpoint crumbs_loop (fuel : nat) (current : option path) : list Breadcrumb :=
  match fuel, current with
  | O, _ => []
  | _, None => []
  | S fuel', Some p =>
      if path_eqb p [CurDir] then []
      else mkBreadcrumb
             (match file_name p with Some s => s | None => "" end)
             (to_web_path p)
           :: crumbs_loop fuel' (parent p)
  end.

Definition to_breadcrumbs (p : path) : list Breadcrumb :=
  rev (crumbs_loop (S (List.length p)) (Some p)).

(* ================================================================== *)
(** ** [ignore] and [icon] *)

Definition VENDOR_DIR_NAME : string := "_vendor".

Definition ignore (p : path) : bool :=
  match file_name p with
  | Some f => (f =? VENDOR_DIR_NAME) || (f =? "index.html") || (f =? "index.json")
  | None => false
  end.

Definition one_of (e : string) (l : list string) : bool :=
  existsb (String.eqb e) l.

(** [icon]: [is_dir] is the answer of [path.is_dir()]. *)
Definition icon (is_dir : bool) (p : path) : string :=
  if is_dir then "dir.png" else
  let e := match extension p with Some e => e | None => "" end in
  if e =? ".." then "back.png"
  else if one_of e [""; "^^BLANKICON^^"] then "blank.gif"
  else if e =? "comp" then "comp.png"
  else if one_of e ["zip"; "tar"; "tgz"; "rar"; "gz"; "bz2"] then "compressed.gif"
  else if one_of e ["doc"; "docx"] then "doc.png"
  else if one_of e ["xls"; "xlsx"] then "xls.png"
  else if one_of e ["ppt"; "pptx"] then "ppt.png"
  else if one_of e ["txt"; "text"; "html"; "htm"; "md"; "mdown"; "markdown"] then "text.png"
  else if e =? "pdf" then "pdf.png"
  else if one_of e ["jpg"; "jpeg"; "png"; "gif"; "tif"; "tiff"; "webp"] then "image.png"
  else if e =? "ps" then "ps.png"
  else if one_of e ["mp3"; "wav"; "m4a"; "ogg"] then "sound.png"
  else if one_of e ["wmv"; "avi"; "mp4"; "webm"] then "movie-ms.gif"
  else if one_of e ["mov"; "qt"] then "mov.png"
  else if e =? "java" then "java.png"
  else if e =? "js" then "js.png"
  else if e =? "php" then "php.png"
  else "text.png".

(* ================================================================== *)
(** ** The file system seen by one run *)

(** The part of [std::fs::Metadata] the program reads: [len()] and
    [modified()] (a UTC timestamp, here in seconds). *)
Record meta : Type := mkMeta {
  m_len : Z;
  m_modified : Z;
}.

(** A file system node.  [md = None] models [path.metadata()] or
    [metadata.modified()] failing.  For a directory, [readable = false]
    makes opening it for reading fail ([read_dir()], and the traversal of
    [remove_dir_all]), [json_ok]/[html_ok] false make the removal,
    creation or serialisation of [index.json]/[index.html] fail, and the
    children are the items the [ReadDir] iterator yields, in order: [None]
    is an item that is an [Err], [Some (name, node)] a [DirEntry].
    [FLink target] is a symbolic link; [target] is the node it resolves
    to, [None] when it cannot be resolved (dangling, or a loop).  Write
    permission on directories is not part of the model beyond the two
    listing flags. *)
Inductive fsnode : Type :=
| FFile (md : option meta)
| FDir (md : option meta) (readable json_ok html_ok : bool)
       (children : list (option (string * fsnode)))
| FLink (target : option fsnode).

(** [path.metadata()] (a [stat]: it follows symbolic links). *)
Fixpoint node_meta (n : fsnode) : option meta :=
  match n with
  | FFile md => md
  | FDir md _ _ _ _ => md
  | FLink (Some t) => node_meta t
  | FLink None => None
  end.

(** [dir_entry.file_type()?.is_dir()]: the type of the entry itself, a
    symbolic link is not a directory.  ([DirEntry::file_type] reads the
    type the directory stream reports, or [lstat]s the entry; it cannot
    fail where the [stat] of [Entry::new] just succeeded on the same
    path, so its error is not modelled.) *)
Definition is_dir_node (n : fsnode) : bool :=
  match n with FDir _ _ _ _ _ => true | _ => false end.

(** [path.is_dir()]: follows symbolic links, [false] on any error. *)
Fixpoint path_is_dir (n : fsnode) : bool :=
  match n with
  | FFile _ => false
  | FDir _ _ _ _ _ => true
  | FLink (Some t) => path_is_dir t
  | FLink None => false
  end.

(** [Path::join] of a directory path with the name of one of its
    entries. *)
Definition join (p : path) (name : string) : path := p ++ [Normal name].

(* ================================================================== *)
(** ** [Entry] and its serialised form *)

(** The [size] field: ["directory"], or [format!("{}", Size::from_bytes(n))]
    for a file of [n] bytes (the formatting belongs to the [size] crate). *)
Inductive size_str : Type :=
| SizeDirectory
| SizeBytes (n : Z).

Record Entry : Type := mkEntry {
  e_name : string;
  e_path : string;
  e_icon : string;
  e_date : Z;
  e_size : size_str;
}.

(** What [serde] writes for an [Entry]: [path] and [icon] carry
    [#[serde(skip)]]. *)
Record JsonEntry : Type := mkJsonEntry {
  je_name : string;
  je_date : Z;
  je_size : size_str;
}.

Definition to_json (e : Entry) : JsonEntry :=
  mkJsonEntry (e_name e) (e_date e) (e_size e).

Inductive io_error : Type :=
| ReadDirFailed
| MetadataFailed
| WriteFailed
| NotFound
| NotADirectory
| AlreadyExists
| PermissionDenied.

Inductive result (A : Type) : Type :=
| Ok (a : A)
| Err (e : io_error).
Arguments Ok {A} a.
Arguments Err {A} e.

(** [Entry::new] *)
Definition entry_new (p : path) (n : fsnode) : result Entry :=
  match node_meta n with
  | None => Err MetadataFailed
  | Some m =>
      Ok (mkEntry
            (match file_name p with Some s => s | None => "" end)
            (to_web_path p)
            (icon (path_is_dir n) p)
            (m_modified m)
            (if path_is_dir n then SizeDirectory else SizeBytes (m_len m)))
  end.

(* ================================================================== *)
(** ** Effects: the observable events of a run and early return on error *)

Inductive event : Type :=
| Log (p : path)                         (** [eprintln!("Generating indicies for ...")] *)
| WriteJson (p : path) (entries : list JsonEntry)
| WriteHtml (p : path) (vendor_dir : string)
            (breadcrumbs : list Breadcrumb) (entries : list Entry).

Definition event_path (ev : event) : path :=
  match ev with
  | Log p => p
  | WriteJson p _ => p
  | WriteHtml p _ _ _ => p
  end.

(** A computation returns the events it produced and its result; an [Err]
    stops it, as [?] does. *)
Definition M (A : Type) : Type := (list event * result A)%type.

Definition ret {A} (a : A) : M A := ([], Ok a).
Definition throw {A} (e : io_error) : M A := ([], Err e).
Definition emit (ev : event) : M unit := ([ev], Ok tt).
Definition bind {A B} (m : M A) (k : A -> M B) : M B :=
  match m with
  | (t1, Ok a) => let (t2, r) := k a in (t1 ++ t2, r)
  | (t1, Err e) => (t1, Err e)
  end.
Definition lift {A} (r : result A) : M A := ([], r).

Notation "x <- m ;; k" := (bind m (fun x => k))
  (at level 61, m at next level, right associativity).
Notation "m ;;; k" := (bind m (fun _ => k))
  (at level 61, right associativity).

(* ================================================================== *)
(** ** Sorting: [Vec::sort_by] is a stable sort *)

Section Sort.
Context {A : Type} (cmp : A -> A -> comparison).

Fixpoint insert (x : A) (l : list A) : list A :=
  match l with
  | [] => [x]
  | y :: l' =>
      match cmp x y with
      | Gt => y :: insert x l'
      | _ => x :: y :: l'
      end
  end.

Fixpoint sort_by (l : list A) : list A :=
  match l with
  | [] => []
  | x :: l' => insert x (sort_by l')
  end.
End Sort.

(** [|a, b| a.name.cmp(&b.name)] and [|a, b| b.date.cmp(&a.date)]. *)
Definition by_name (a b : Entry) : comparison := String.compare (e_name a) (e_name b).
Definition by_date_desc (a b : Entry) : comparison := Z.compare (e_date b) (e_date a).

(* ================================================================== *)
(** ** [generate_index] *)

(** The [for dir_entry in path.read_dir()?] loop, with the recursive call
    passed in as [gen]; it returns the [directories] and [files] vectors. *)
Fixpoint visit_children (gen : path -> fsnode -> M unit) (p : path)
    (items : list (option (string * fsnode))) (directories files : list Entry)
    : M (list Entry * list Entry) :=
  match items with
  | [] => ret (directories, files)
  | None :: items' => visit_children gen p items' directories files
  | Some (name, child) :: items' =>
      let entry_path := join p name in
      if ignore entry_path then visit_children gen p items' directories files
      else
        entry <- lift (entry_new entry_path child) ;;
        if is_dir_node child then
          gen entry_path child ;;;
          visit_children gen p items' (directories ++ [entry]) files
        else visit_children gen p items' directories (files ++ [entry])
  end.

(** Lines 104-139: sort both vectors, then write [index.json] (files only)
    and [index.html] (directories, then files, with the breadcrumbs). *)
Definition write_listings (p : path) (json_ok html_ok : bool)
    (directories files : list Entry) : M unit :=
  let directories := sort_by by_name directories in
  let files := sort_by by_date_desc files in
  (if json_ok then emit (WriteJson p (map to_json files)) else throw WriteFailed) ;;;
  let entries := directories ++ files in
  let breadcrumbs := to_breadcrumbs p in
  if html_ok then emit (WriteHtml p VENDOR_DIR_NAME breadcrumbs entries)
  else throw WriteFailed.

(** [read_dir()] follows a symbolic link, so the visit of a link is the
    visit of the node it resolves to, under the link's own path. *)
Fixpoint generate_index (p : path) (n : fsnode) {struct n} : M unit :=
  match n with
  | FLink (Some target) => generate_index p target
  | _ =>
      emit (Log p) ;;;
      match n with
      | FDir _ true json_ok html_ok items =>
          acc <- visit_children generate_index p items [] [] ;;
          write_listings p json_ok html_ok (fst acc) (snd acc)
      | _ => throw ReadDirFailed
      end
  end.

(** The traversal root ["."]. *)
Definition root_path : path := components ".".

(* ================================================================== *)
(** ** [main]: provisioning the vendor directory, then indexing ["."] *)

Definition entry_named (name : string) (it : option (string * fsnode)) : bool :=
  match it with Some (nm, _) => nm =? name | None => false end.

Fixpoint lookup_child (name : string) (items : list (option (string * fsnode)))
    : option fsnode :=
  match items with
  | [] => None
  | Some (nm, n) :: items' => if nm =? name then Some n else lookup_child name items'
  | None :: items' => lookup_child name items'
  end.

(** [std::fs::remove_dir_all] deletes a directory tree without following
    symbolic links: it opens every directory of the tree and enumerates
    it, failing on a directory it cannot read or on an iterator error. *)
Fixpoint removable (n : fsnode) : bool :=
  match n with
  | FDir _ readable _ _ children =>
      readable && forallb (fun it => match it with
                                     | Some (_, c) => removable c
                                     | None => false
                                     end) children
  | _ => true
  end.

(** [std::fs::remove_dir_all] on an entry of the working directory: an
    error when the entry does not exist, is a file, or is a directory tree
    it cannot traverse; a symbolic link is removed itself. *)
Definition remove_dir_all (name : string) (items : list (option (string * fsnode)))
    : result (list (option (string * fsnode))) :=
  match lookup_child name items with
  | None => Err NotFound
  | Some (FFile _) => Err NotADirectory
  | Some (FLink _) => Ok (filter (fun it => negb (entry_named name it)) items)
  | Some (FDir _ _ _ _ _ as d) =>
      if removable d then Ok (filter (fun it => negb (entry_named name it)) items)
      else Err PermissionDenied
  end.

(** [std::fs::create_dir]: an error when the entry exists; [now] is the
    metadata the new directory gets. *)
Definition create_dir (name : string) (now : meta) (items : list (option (string * fsnode)))
    : result (list (option (string * fsnode))) :=
  match lookup_child name items with
  | Some _ => Err AlreadyExists
  | None => Ok (items ++ [Some (name, FDir (Some now) true true true [])])
  end.

(** [Dir::extract]: writes the embedded [assets] into the directory
    [name]. *)
Definition extract (name : string) (assets : list (option (string * fsnode)))
    (items : list (option (string * fsnode))) : result (list (option (string * fsnode))) :=
  match lookup_child name items with
  | Some (FDir md rd j h cs) =>
      Ok (map (fun it => if entry_named name it
                         then Some (name, FDir md rd j h (cs ++ assets)) else it) items)
  | _ => Err NotFound
  end.

(** [main], run in the working directory [cwd]; [assets] is the content of
    [VENDOR_DIR] ([include_dir!("vendor")]). *)
Definition main (assets : list (option (string * fsnode))) (now : meta) (cwd : fsnode)
    : M unit :=
  match cwd with
  | FFile _ | FLink _ => throw NotADirectory
  | FDir md rd j h items =>
      items1 <- lift (remove_dir_all VENDOR_DIR_NAME items) ;;
      items2 <- lift (create_dir VENDOR_DIR_NAME now items1) ;;
      items3 <- lift (extract VENDOR_DIR_NAME assets items2) ;;
      generate_index root_path (FDir md rd j h items3)
  end.

(* ================================================================== *)
(** ** Vocabulary of the statements *)




(** The [k]-th breadcrumb (from 1) of the directory reached from the
    root by the names [ns]. *)
Definition crumb_at (ns : list string) (k : nat) : Breadcrumb :=
  mkBreadcrumb (last (firstn k ns) "") (String.concat "/" (firstn k ns)).

(** The extension table of the specification (section 4.2), extension to
    icon key. *)
Definition spec_icon_table : list (string * string) :=
  [("comp", "comp");
   ("zip", "compressed"); ("tar", "compressed"); ("tgz", "compressed");
   ("rar", "compressed"); ("gz", "compressed"); ("bz2", "compressed");
   ("doc", "doc"); ("docx", "doc"); ("xls", "xls"); ("xlsx", "xls");
   ("ppt", "ppt"); ("pptx", "ppt");
   ("txt", "text"); ("text", "text"); ("html", "text"); ("htm", "text");
   ("md", "text"); ("mdown", "text"); ("markdown", "text");
   ("pdf", "pdf");
   ("jpg", "image"); ("jpeg", "image"); ("png", "image"); ("gif", "image");
   ("tif", "image"); ("tiff", "image"); ("webp", "image");
   ("ps", "ps");
   ("mp3", "sound"); ("wav", "sound"); ("m4a", "sound"); ("ogg", "sound");
   ("wmv", "movie"); ("avi", "movie"); ("mp4", "movie"); ("webm", "movie");
   ("mov", "mov"); ("qt", "mov");
   ("java", "java"); ("js", "js"); ("php", "php")].

(** The bundled asset file an icon key of the specification names. *)
Definition icon_asset (key : string) : string :=
  if key =? "compressed" then "compressed.gif"
  else if key =? "movie" then "movie-ms.gif"
  else (key ++ ".png")%string.

(** [q] lies strictly below the directory [p]. *)
Definition below (p q : path) : Prop := exists x s, q = p ++ x :: s.

(** [ev] writes one of the listings of the directory [p]. *)
Definition own_write (p : path) (ev : event) : Prop :=
  match ev with
  | Log _ => False
  | WriteJson q _ => q = p
  | WriteHtml q _ _ _ => q = p
  end.

(** The enumerated, non-ignored children of the directory [p] whose node
    satisfies [keep]. *)
Definition child_entries (keep : fsnode -> bool) (p : path)
    (items : list (option (string * fsnode))) : list (string * fsnode) :=
  flat_map (fun it =>
              match it with
              | Some (nm, c) => if negb (ignore (join p nm)) && keep c then [(nm, c)] else []
              | None => []
              end) items.

Definition file_children (p : path) items := child_entries (fun c => negb (is_dir_node c)) p items.
Definition dir_children (p : path) items := child_entries is_dir_node p items.

(** [descendant n p s q]: the directory [s] at [q] is reached from the
    directory [n] at [p] through non-ignored subdirectories. *)
Inductive descendant : fsnode -> path -> fsnode -> path -> Prop :=
| desc_child md rd j h items p nm c :
    In (Some (nm, c)) items -> ignore (join p nm) = false -> is_dir_node c = true ->
    descendant (FDir md rd j h items) p c (join p nm)
| desc_deeper md rd j h items p nm c s q :
    In (Some (nm, c)) items -> ignore (join p nm) = false -> is_dir_node c = true ->
    descendant c (join p nm) s q ->
    descendant (FDir md rd j h items) p s q.

Definition ignored_names : list string := [VENDOR_DIR_NAME; "index.html"; "index.json"].

(** The names of the entries a listing event writes. *)
Definition listed_names (ev : event) : list string :=
  match ev with
  | Log _ => []
  | WriteJson _ es => map je_name es
  | WriteHtml _ _ _ es => map e_name es
  end.

(** The iterator items the loop of [generate_index] acts on: enumerated
    entries that [ignore] does not skip. *)
Definition listed_item (p : path) (it : option (string * fsnode)) : bool :=
  match it with
  | Some (nm, _) => negb (ignore (join p nm))
  | None => false
  end.

(** [q] is [p] extended by names none of which is ignored. *)
Definition no_ignored_below (p q : path) : Prop :=
  exists ns, q = p ++ map Normal ns /\ Forall (fun nm => ~ In nm ignored_names) ns.

(** A sample tree: the root holds [a.txt], a stale [index.json], the
    subdirectory [sub] with [b.txt], and [c.md]. *)
Definition sample_file (len date : Z) : fsnode := FFile (Some (mkMeta len date)).

Definition sample_sub : fsnode :=
  FDir (Some (mkMeta 0 2)) true true true [Some ("b.txt", sample_file 7 4)].

Definition sample_items : list (option (string * fsnode)) :=
  [Some ("a.txt", sample_file 10 5);
   Some ("index.json", sample_file 3 3);
   Some ("sub", sample_sub);
   Some ("c.md", sample_file 1 9)].

Definition sample_tree : fsnode := FDir (Some (mkMeta 0 1)) true true true sample_items.

Definition sample_json : list JsonEntry :=
  [mkJsonEntry "c.md" 9 (SizeBytes 1); mkJsonEntry "a.txt" 5 (SizeBytes 10)].

Definition sample_html : list Entry :=
  [mkEntry "sub" "sub" "dir.png" 2 SizeDirectory;
   mkEntry "c.md" "c.md" "text.png" 9 (SizeBytes 1);
   mkEntry "a.txt" "a.txt" "text.png" 5 (SizeBytes 10)].

(** The same root, whose subdirectory [sub] cannot be read. *)
Definition broken_sub : fsnode :=
  FDir (Some (mkMeta 0 2)) false true true [Some ("b.txt", sample_file 7 4)].

Definition broken_items : list (option (string * fsnode)) :=
  [Some ("a.txt", sample_file 10 5); Some ("sub", broken_sub)].

(** A root holding a file, a symbolic link to a directory, and that
    directory. *)
Definition sym_items : list (option (string * fsnode)) :=
  [Some ("a.txt", sample_file 10 9); Some ("link", FLink (Some sample_sub));
   Some ("sub", sample_sub)].

Definition sym_tree : fsnode := FDir (Some (mkMeta 0 1)) true true true sym_items.

Definition sym_json : list JsonEntry :=
  [mkJsonEntry "a.txt" 9 (SizeBytes 10); mkJsonEntry "link" 2 SizeDirectory].


(** The sample root after an earlier run: it holds a [_vendor] directory
    with an old asset. *)
Definition old_vendor : fsnode :=
  FDir (Some (mkMeta 0 0)) true true true [Some ("old.css", sample_file 5 0)].


(** The directories and the files of the sample root, in enumeration
    order, as the loop collects them. *)
Definition sample_html_split : list Entry * list Entry :=
  ([mkEntry "sub" "sub" "dir.png" 2 SizeDirectory],
   [mkEntry "a.txt" "a.txt" "text.png" 5 (SizeBytes 10);
    mkEntry "c.md" "c.md" "text.png" 9 (SizeBytes 1)]).

(* ================================================================== *)
(** * Proofs *)

Example ex_components : components "./x/y" = [CurDir; Normal "x"; Normal "y"].
Proof. reflexivity. Qed.
Example ex_web : to_web_path (components "/a/./b/../c/") = "a/b/c".
Proof. reflexivity. Qed.
Example ex_crumbs : to_breadcrumbs (components "./x/y/z") =
  [mkBreadcrumb "x" "x"; mkBreadcrumb "y" "x/y"; mkBreadcrumb "z" "x/y/z"].
Proof. reflexivity. Qed.
Example ex_ext : extension (components "a/report.tar.gz") = Some "gz"
  /\ extension (components ".bashrc") = None
  /\ extension (components "README") = None
  /\ extension (components "x.") = Some "".
Proof. repeat split; reflexivity. Qed.
Example ex_icon : icon false (components "report.pdf") = "pdf.png"
  /\ icon false (components "report.PDF") = "text.png"
  /\ icon false (components "README") = "blank.gif".
Proof. repeat split; reflexivity. Qed.

Example ex_generate_index :
  fst (generate_index root_path sample_tree)
  = [Log root_path; Log (join root_path "sub");
     WriteJson (join root_path "sub") [mkJsonEntry "b.txt" 4 (SizeBytes 7)];
     WriteHtml (join root_path "sub") VENDOR_DIR_NAME [mkBreadcrumb "sub" "sub"]
       [mkEntry "b.txt" "sub/b.txt" "text.png" 4 (SizeBytes 7)];
     WriteJson root_path sample_json;
     WriteHtml root_path VENDOR_DIR_NAME [] sample_html].
Proof. vm_compute. reflexivity. Qed.


(* ------------------------------------------------------------------ *)
(** ** Web paths *)











Lemma web_normals ns :
  Forall (fun x => x <> "") ns ->
  to_web_path (CurDir :: map Normal ns) = String.concat "/" ns.
Proof.
  intros H. unfold to_web_path. simpl. f_equal.
  rewrite map_map. simpl. rewrite map_id.
  induction H as [|x ns Hx H IH]; [reflexivity|].
  simpl. apply String.eqb_neq in Hx. rewrite Hx. simpl. f_equal. exact IH.
Qed.


(* ------------------------------------------------------------------ *)
(** ** Breadcrumbs *)

Lemma path_eqb_refl p : path_eqb p p = true.
Proof. unfold path_eqb. destruct list_eq_dec; congruence. Qed.

Lemma path_eqb_neq p q : p <> q -> path_eqb p q = false.
Proof. unfold path_eqb. destruct list_eq_dec; congruence. Qed.

Lemma crumbs_loop_normals ns fuel :
  Forall (fun x => x <> "") ns -> List.length ns < fuel ->
  crumbs_loop fuel (Some (CurDir :: map Normal ns))
  = rev (map (crumb_at ns) (seq 1 (List.length ns))).
Proof.
  revert fuel. induction ns as [|x ns IH] using rev_ind; intros fuel Hne Hf.
  - destruct fuel; [simpl in Hf; lia|]. reflexivity.
  - apply Forall_app in Hne as [Hns Hx]. inversion Hx; subst.
    destruct fuel as [|fuel]; [simpl in Hf; lia|].
    rewrite length_app in Hf. simpl in Hf.
    assert (Hsplit : CurDir :: map Normal (ns ++ [x])
                     = (CurDir :: map Normal ns) ++ [Normal x])
      by (rewrite map_app; reflexivity).
    simpl crumbs_loop.
    rewrite path_eqb_neq.
    2:{ rewrite Hsplit. intros E. apply (f_equal (@List.length component)) in E.
        rewrite length_app in E. simpl in E. lia. }
    assert (Hfn : file_name (CurDir :: map Normal (ns ++ [x])) = Some x).
    { rewrite Hsplit. unfold file_name. rewrite map_app.
      change (map Some [Normal x]) with [Some (Normal x)]. rewrite last_last. reflexivity. }
    assert (Hpar : parent (CurDir :: map Normal (ns ++ [x])) = Some (CurDir :: map Normal ns)).
    { rewrite Hsplit. unfold parent. rewrite map_app.
      change (map Some [Normal x]) with [Some (Normal x)]. rewrite last_last, removelast_last.
      reflexivity. }
    rewrite Hfn, Hpar, web_normals by (apply Forall_app; auto).
    rewrite IH by (auto; lia).
    rewrite length_app. simpl. rewrite Nat.add_1_r, seq_S, map_app, rev_app_distr.
    simpl. f_equal.
    + unfold crumb_at. rewrite firstn_all2 by (rewrite length_app; simpl; lia).
      rewrite last_last. reflexivity.
    + f_equal. apply map_ext_in. intros k Hk. apply in_seq in Hk.
      unfold crumb_at. rewrite firstn_app.
      replace (k - List.length ns) with 0 by lia. simpl. rewrite app_nil_r. reflexivity.
Qed.

Lemma to_breadcrumbs_normals ns :
  Forall (fun x => x <> "") ns ->
  to_breadcrumbs (CurDir :: map Normal ns) = map (crumb_at ns) (seq 1 (List.length ns)).
Proof.
  intros H. unfold to_breadcrumbs.
  rewrite crumbs_loop_normals by (auto; simpl; rewrite length_map; lia).
  apply rev_involutive.
Qed.

(** C9: the directory [./x/y/z] has the breadcrumbs [x], [x/y], [x/y/z]
    named [x], [y], [z]; the root has none; in general a directory [n]
    levels below the root has exactly [n] crumbs, the [k]-th one for the
    first [k] names, so the root never contributes one. *)
Theorem C9_breadcrumbs_root_to_leaf (x y z : string) :
  x <> "" -> y <> "" -> z <> "" ->
  to_breadcrumbs (join (join (join root_path x) y) z)
  = [mkBreadcrumb x x; mkBreadcrumb y (x ++ "/" ++ y)%string;
     mkBreadcrumb z (x ++ "/" ++ y ++ "/" ++ z)%string]
  /\ to_breadcrumbs root_path = []
  /\ (forall ns, Forall (fun s => s <> "") ns ->
        to_breadcrumbs (CurDir :: map Normal ns)
        = map (crumb_at ns) (seq 1 (List.length ns))).
Proof.
  intros Hx Hy Hz. split; [|split].
  - change (join (join (join root_path x) y) z) with (CurDir :: map Normal [x; y; z]).
    rewrite to_breadcrumbs_normals by auto. reflexivity.
  - reflexivity.
  - exact to_breadcrumbs_normals.
Qed.

(* ------------------------------------------------------------------ *)
(** ** Icons *)

Definition has_dot (s : string) : bool :=
  existsb (fun c => Ascii.eqb c ".") (list_ascii_of_string s).

Lemma rsplit_dot_none s : rsplit_dot s = None -> has_dot s = false.
Proof.
  induction s as [|c s IH]; simpl; [reflexivity|].
  destruct (rsplit_dot s) as [[b a]|]; [discriminate|].
  destruct (Ascii.eqb c ".") eqn:Hc; [discriminate|].
  intros _. unfold has_dot in *. simpl. rewrite Hc. apply IH. reflexivity.
Qed.

Lemma rsplit_dot_after s b a : rsplit_dot s = Some (b, a) -> has_dot a = false.
Proof.
  revert b. induction s as [|c s IH]; intros b; simpl; [discriminate|].
  destruct (rsplit_dot s) as [[b' a']|] eqn:Hs.
  - intros E. injection E as <- <-. eapply IH. reflexivity.
  - destruct (Ascii.eqb c "."); [|discriminate].
    intros E. injection E as <- <-. apply rsplit_dot_none. exact Hs.
Qed.

(** An extension never contains a dot, so the [".."] arm of [icon] is
    never taken. *)
Lemma extension_no_dot p e : extension p = Some e -> has_dot e = false.
Proof.
  unfold extension, extension_of_file_name.
  destruct (file_name p) as [f|]; [|discriminate].
  destruct (f =? ".."); [discriminate|].
  destruct (rsplit_dot f) as [[b a]|] eqn:Hf; [|discriminate].
  destruct (b =? ""); [discriminate|].
  intros E. injection E as <-. eapply rsplit_dot_after. exact Hf.
Qed.

Ltac member_of E :=
  unfold one_of in E; simpl in E;
  repeat (apply orb_true_iff in E; destruct E as [E|E]);
  try discriminate E;
  apply String.eqb_eq in E; subst.

(** C4: a file whose extension is in the table of the specification gets
    the icon of the key the table gives it; the match is case-sensitive
    ([report.PDF] is not a PDF). *)
Theorem C4_icon_table :
  (forall p ext key,
      In (ext, key) spec_icon_table -> extension p = Some ext ->
      icon false p = icon_asset key)
  /\ icon false (components "report.pdf") = icon_asset "pdf"
  /\ icon false (components "report.PDF") = icon_asset "text".
Proof.
  split; [|split; reflexivity].
  intros p ext key Hin Hext. unfold icon. rewrite Hext.
  simpl in Hin. repeat destruct Hin as [Hin|Hin]; try contradiction;
    injection Hin as <- <-; reflexivity.
Qed.

(** C3 (amended): a directory gets [dir.png]; a file with no extension, an
    empty extension or the extension [^^BLANKICON^^] gets [blank.gif]; a
    file with any other extension outside the table gets [text.png]. *)
Theorem C3_icon_default_amended (p : path) :
  icon true p = "dir.png"
  /\ (extension p = None \/ extension p = Some "" \/ extension p = Some "^^BLANKICON^^" ->
      icon false p = "blank.gif")
  /\ (forall e, extension p = Some e -> ~ In e (map fst spec_icon_table) ->
      e <> "" -> e <> "^^BLANKICON^^" -> icon false p = "text.png").
Proof.
  split; [reflexivity|split].
  - intros [H|[H|H]]; unfold icon; rewrite H; reflexivity.
  - intros e He Hnin Hne Hnb. pose proof (extension_no_dot p e He) as Hdot.
    unfold icon. rewrite He.
    repeat match goal with
           | |- context [if ?c then _ else _] =>
               let E := fresh "E" in destruct c eqn:E; [exfalso|]
           end; try reflexivity.
    all: match goal with
         | E : (_ =? _)%string = true |- _ => apply String.eqb_eq in E; subst
         | E : one_of _ _ = true |- _ => member_of E
         end.
    all: try discriminate Hdot; try congruence; apply Hnin; simpl; tauto.
Qed.

(** C3: a file without an extension does not get the text icon. *)
Lemma C3_extensionless_counterexample :
  extension (components "README") = None
  /\ icon false (components "README") = "blank.gif"
  /\ icon false (components "README") <> "text.png".
Proof. split; [|split]; [reflexivity | reflexivity | discriminate]. Qed.

(* ------------------------------------------------------------------ *)
(** ** Induction on the file system tree *)

Section FsnodeInd.
Variable P : fsnode -> Prop.
Hypothesis HFile : forall md, P (FFile md).
Hypothesis HDir : forall md rd j h items,
  (forall nm c, In (Some (nm, c)) items -> P c) -> P (FDir md rd j h items).
Hypothesis HLink : forall t, (forall c, t = Some c -> P c) -> P (FLink t).

Let item_P (it : option (string * fsnode)) : Prop :=
  match it with Some (_, c) => P c | None => True end.

Fixpoint fsnode_ind' (n : fsnode) : P n :=
  match n with
  | FFile md => HFile md
  | FDir md rd j h items =>
      HDir md rd j h items
        (fun nm c H =>
           proj1 (Forall_forall item_P items)
             ((fix go (l : list (option (string * fsnode))) : Forall item_P l :=
                 match l with
                 | [] => Forall_nil _
                 | it :: l' =>
                     Forall_cons it
                       (match it return item_P it with
                        | Some (_, c') => fsnode_ind' c'
                        | None => I
                        end) (go l')
                 end) items)
             (Some (nm, c)) H)
  | FLink t =>
      HLink t (fun c E => match E in _ = o return (match o with Some c' => P c' | None => True end) with
                          | eq_refl => match t return (match t with Some c' => P c' | None => True end) with
                                       | Some c' => fsnode_ind' c'
                                       | None => I
                                       end
                          end)
  end.
End FsnodeInd.

(* ------------------------------------------------------------------ *)
(** ** The monad *)

Lemma bind_fst {A B} (m : M A) (k : A -> M B) :
  fst (bind m k) = fst m ++ match snd m with Ok a => fst (k a) | Err _ => [] end.
Proof.
  destruct m as [t [a|e]]; simpl; [destruct (k a); reflexivity | symmetry; apply app_nil_r].
Qed.

Lemma bind_snd {A B} (m : M A) (k : A -> M B) :
  snd (bind m k) = match snd m with Ok a => snd (k a) | Err e => Err e end.
Proof. destruct m as [t [a|e]]; simpl; [destruct (k a)|]; reflexivity. Qed.

Lemma bind_ok_inv {A B} (m : M A) (k : A -> M B) t b :
  bind m k = (t, Ok b) ->
  exists t1 a t2, m = (t1, Ok a) /\ k a = (t2, Ok b) /\ t = t1 ++ t2.
Proof.
  destruct m as [t1 [a|e]]; simpl; [|discriminate].
  destruct (k a) as [t2 r] eqn:Hk. intros E. injection E as <- ->. eauto 7.
Qed.

Lemma bind_lift_ok {A B} (a : A) (k : A -> M B) : bind (lift (Ok a)) k = k a.
Proof. simpl. destruct (k a); reflexivity. Qed.

Lemma bind_lift_err {A B} e (k : A -> M B) : bind (lift (Err e)) k = ([], Err e).
Proof. reflexivity. Qed.

Lemma generate_index_dir p md j h items :
  generate_index p (FDir md true j h items)
  = (emit (Log p) ;;;
     (acc <- visit_children generate_index p items [] [] ;;
      write_listings p j h (fst acc) (snd acc))).
Proof. reflexivity. Qed.

(* ------------------------------------------------------------------ *)
(** ** Paths of the events *)

Lemma below_join p nm q : q = join p nm \/ below (join p nm) q -> below p q.
Proof.
  unfold below, join. intros [->|[x [s ->]]].
  - eauto.
  - exists (Normal nm), (x :: s). rewrite <- app_assoc. reflexivity.
Qed.

Lemma below_neq p q : below p q -> q <> p.
Proof.
  intros [x [s ->]] E. apply (f_equal (@List.length component)) in E.
  rewrite length_app in E. simpl in E. lia.
Qed.

Lemma own_write_not_below p ev : below p (event_path ev) -> ~ own_write p ev.
Proof.
  intros Hb. apply below_neq in Hb. destruct ev; simpl in *; congruence.
Qed.

(** Every event of the loop comes from the visit of one of the children. *)
Lemma visit_trace_forall (Q : event -> Prop) gen p items dirs files :
  (forall nm c, In (Some (nm, c)) items -> Forall Q (fst (gen (join p nm) c))) ->
  Forall Q (fst (visit_children gen p items dirs files)).
Proof.
  revert dirs files.
  induction items as [|[[nm c]|] items IH]; intros dirs files Hch; cbn [visit_children].
  - constructor.
  - destruct (ignore (join p nm)).
    + apply IH. intros; apply Hch; right; assumption.
    + destruct (entry_new (join p nm) c) as [e|e];
        [rewrite bind_lift_ok | rewrite bind_lift_err; constructor].
      destruct (is_dir_node c).
      * rewrite bind_fst. apply Forall_app. split; [apply Hch; left; reflexivity|].
        destruct (snd (gen (join p nm) c)); [|constructor].
        apply IH. intros; apply Hch; right; assumption.
      * apply IH. intros; apply Hch; right; assumption.
  - apply IH. intros; apply Hch; right; assumption.
Qed.

Lemma write_listings_own p j h ds fs : Forall (own_write p) (fst (write_listings p j h ds fs)).
Proof.
  unfold write_listings. destruct j, h; simpl; repeat constructor.
Qed.

Lemma generate_index_paths n :
  forall p, Forall (fun ev => event_path ev = p \/ below p (event_path ev))
                   (fst (generate_index p n)).
Proof.
  induction n as [md|md rd j h items IH|t IHt] using fsnode_ind'; intros p.
  - simpl. repeat constructor.
  - destruct rd; [|simpl; repeat constructor].
    rewrite generate_index_dir. rewrite bind_fst. simpl. constructor; [left; reflexivity|].
    rewrite bind_fst. apply Forall_app. split.
    + eapply Forall_impl; [|apply (visit_trace_forall (fun ev => below p (event_path ev)))].
      * intros; right; assumption.
      * intros nm c Hin. eapply Forall_impl; [|apply (IH nm c Hin)].
        intros ev Hev. apply (below_join p nm). exact Hev.
    + destruct (snd _); [|constructor].
      eapply Forall_impl; [|apply write_listings_own]. intros ev Hev. left.
      destruct ev; simpl in *; try contradiction; exact Hev.
  - destruct t as [c|]; [exact (IHt c eq_refl p) | simpl; repeat constructor].
Qed.

(* ------------------------------------------------------------------ *)
(** ** The loop over the children: failure and success *)

(** The loop fails as soon as one non-ignored child cannot be read or is a
    subdirectory whose own visit fails (possibly after an earlier error). *)
Lemma visit_children_err gen p items dirs files nm c :
  In (Some (nm, c)) items -> ignore (join p nm) = false ->
  node_meta c = None \/ (is_dir_node c = true /\ exists e, snd (gen (join p nm) c) = Err e) ->
  exists e', snd (visit_children gen p items dirs files) = Err e'.
Proof.
  revert dirs files.
  induction items as [|[[nm0 c0]|] items IH]; intros dirs files Hin Hig Hbad;
    [contradiction | cbn [visit_children] | cbn [visit_children]].
  - destruct Hin as [E|Hin].
    + injection E as -> ->. rewrite Hig.
      destruct (entry_new (join p nm) c) as [e|e] eqn:He;
        [rewrite bind_lift_ok | rewrite bind_lift_err; simpl; eauto].
      destruct Hbad as [Hm|[Hd [e' He']]].
      * unfold entry_new in He. rewrite Hm in He. discriminate.
      * rewrite Hd, bind_snd, He'. eauto.
    + destruct (ignore (join p nm0)); [apply IH; assumption|].
      destruct (entry_new (join p nm0) c0) as [e|e];
        [rewrite bind_lift_ok | rewrite bind_lift_err; simpl; eauto].
      destruct (is_dir_node c0); [|apply IH; assumption].
      rewrite bind_snd. destruct (snd (gen (join p nm0) c0)); [|eauto].
      apply IH; assumption.
  - destruct Hin as [E|Hin]; [discriminate|]. apply IH; assumption.
Qed.

Definition entry_of (p : path) (x : string * fsnode) (e : Entry) : Prop :=
  entry_new (join p (fst x)) (snd x) = Ok e.

(** A successful loop has turned every non-ignored subdirectory into an
    entry of [directories] and every non-ignored file into an entry of
    [files], in enumeration order. *)
Lemma visit_children_ok gen p items dirs files t ds' fs' :
  visit_children gen p items dirs files = (t, Ok (ds', fs')) ->
  exists ds fs, ds' = dirs ++ ds /\ fs' = files ++ fs
    /\ Forall2 (entry_of p) (dir_children p items) ds
    /\ Forall2 (entry_of p) (file_children p items) fs.
Proof.
  revert dirs files t.
  induction items as [|[[nm c]|] items IH]; intros dirs files t;
    cbn [visit_children].
  - intros E. injection E as _ <- <-. exists [], [].
    rewrite !app_nil_r. repeat split; constructor.
  - unfold dir_children, file_children, child_entries. cbn [flat_map].
    destruct (ignore (join p nm)) eqn:Hig; simpl negb; cbn [andb app].
    + apply IH.
    + destruct (entry_new (join p nm) c) as [e|e] eqn:He;
        [rewrite bind_lift_ok | rewrite bind_lift_err; discriminate].
      destruct (is_dir_node c) eqn:Hd; simpl.
      * intros Hb. apply bind_ok_inv in Hb as [t1 [u [t2 [_ [Hk _]]]]].
        apply IH in Hk as [ds [fs [-> [-> [H1 H2]]]]].
        exists (e :: ds), fs. rewrite <- app_assoc. repeat split; auto.
        all: constructor; auto.
      * intros Hk. apply IH in Hk as [ds [fs [-> [-> [H1 H2]]]]].
        exists ds, (e :: fs). rewrite <- app_assoc. repeat split; auto.
        all: constructor; auto.
  - apply IH.
Qed.

Lemma file_name_join p nm : file_name (join p nm) = Some nm.
Proof.
  unfold file_name, join. rewrite map_app.
  change (map Some [Normal nm]) with [Some (Normal nm)]. rewrite last_last. reflexivity.
Qed.

Lemma entry_new_ok p nm c e :
  entry_new (join p nm) c = Ok e ->
  e_name e = nm
  /\ (is_dir_node c = true -> e_size e = SizeDirectory)
  /\ (exists m, node_meta c = Some m /\ e_date e = m_modified m
        /\ e_size e = if path_is_dir c then SizeDirectory else SizeBytes (m_len m)).
Proof.
  unfold entry_new. rewrite file_name_join.
  destruct (node_meta c) as [m|] eqn:Hm; [|discriminate].
  intros E. injection E as <-. simpl. split; [reflexivity|split].
  - intros Hd. destruct c; try discriminate. reflexivity.
  - exists m. auto.
Qed.

Lemma child_entries_In keep p items nm c :
  In (nm, c) (child_entries keep p items) ->
  In (Some (nm, c)) items /\ ignore (join p nm) = false /\ keep c = true.
Proof.
  unfold child_entries. rewrite in_flat_map. intros [[[nm0 c0]|] [Hin Hx]]; [|contradiction].
  destruct (negb (ignore (join p nm0)) && keep c0) eqn:E; [|contradiction].
  destruct Hx as [Hx|[]]. injection Hx as <- <-.
  apply andb_true_iff in E as [E1 E2]. apply negb_true_iff in E1. auto.
Qed.

Lemma Forall2_In_r {A B} (R : A -> B -> Prop) l1 l2 y :
  Forall2 R l1 l2 -> In y l2 -> exists x, In x l1 /\ R x y.
Proof.
  induction 1 as [|x y' l1 l2 Hxy _ IH]; [contradiction|].
  intros Hy. destruct Hy as [E|Hy].
  - subst. exists x. split; [left; reflexivity | exact Hxy].
  - destruct (IH Hy) as [x' [H1 H2]]. exists x'. split; [right; exact H1 | exact H2].
Qed.

Lemma Forall2_entry_names p L es :
  Forall2 (entry_of p) L es -> map e_name es = map fst L.
Proof.
  induction 1 as [|[nm c] e L es He _ IH]; [reflexivity|].
  simpl. rewrite IH. unfold entry_of in He. simpl in He.
  apply entry_new_ok in He as [-> _]. reflexivity.
Qed.

(* ------------------------------------------------------------------ *)
(** ** Sorting *)

Section SortFacts.
Context {A : Type} (cmp : A -> A -> comparison).
Hypothesis cmp_gt : forall a b, cmp a b = Gt -> cmp b a <> Gt.
Let R a b := cmp a b <> Gt.

Lemma insert_perm x l : Permutation (insert cmp x l) (x :: l).
Proof.
  induction l as [|y l IH]; simpl; [reflexivity|].
  destruct (cmp x y); try reflexivity.
  rewrite IH. apply perm_swap.
Qed.

Lemma sort_by_perm l : Permutation (sort_by cmp l) l.
Proof.
  induction l as [|x l IH]; simpl; [reflexivity|].
  rewrite insert_perm, IH. reflexivity.
Qed.

Lemma insert_hd z x l : R z x -> HdRel R z l -> HdRel R z (insert cmp x l).
Proof.
  intros Hzx Hzl. destruct l as [|y l]; simpl; [constructor; exact Hzx|].
  inversion Hzl; subst. destruct (cmp x y); constructor; assumption.
Qed.

Lemma insert_sorted x l : Sorted R l -> Sorted R (insert cmp x l).
Proof.
  induction l as [|y l IH]; intros Hs; simpl; [repeat constructor|].
  pose proof Hs as Hs'. apply Sorted_inv in Hs' as [Hl Hyl].
  destruct (cmp x y) eqn:E.
  - constructor; [exact Hs|]. constructor. unfold R. rewrite E. discriminate.
  - constructor; [exact Hs|]. constructor. unfold R. rewrite E. discriminate.
  - constructor; [apply IH; assumption|].
    apply insert_hd; [apply cmp_gt; exact E | exact Hyl].
Qed.

Lemma sort_by_sorted l : Sorted R (sort_by cmp l).
Proof.
  induction l as [|x l IH]; simpl; [constructor|]. apply insert_sorted. exact IH.
Qed.
End SortFacts.


Lemma by_date_desc_gt a b : by_date_desc a b = Gt -> by_date_desc b a <> Gt.
Proof.
  unfold by_date_desc. intros E. rewrite Z.compare_antisym, E. discriminate.
Qed.

Lemma Sorted_map_iff {A B} (f : A -> B) (R : B -> B -> Prop) l :
  Sorted (fun a b => R (f a) (f b)) l -> Sorted R (map f l).
Proof.
  induction 1 as [|a l _ IH Hd]; simpl; constructor; [exact IH|].
  destruct Hd; simpl; constructor; assumption.
Qed.

Lemma Sorted_weaken {A} (R R' : A -> A -> Prop) l :
  (forall a b, R a b -> R' a b) -> Sorted R l -> Sorted R' l.
Proof.
  intros HR. induction 1 as [|a l _ IH Hd]; constructor; [exact IH|].
  destruct Hd; constructor; auto.
Qed.

Lemma files_sorted l :
  Sorted (fun a b => (e_date b <= e_date a)%Z) (sort_by by_date_desc l).
Proof.
  eapply Sorted_weaken; [|apply (sort_by_sorted _ by_date_desc_gt)].
  intros a b H. unfold by_date_desc in H. apply Z.compare_ngt_iff in H. lia.
Qed.


(* ------------------------------------------------------------------ *)
(** ** The listings of one directory *)

Lemma write_listings_events p j h ds fs ev :
  In ev (fst (write_listings p j h ds fs)) ->
  ev = WriteJson p (map to_json (sort_by by_date_desc fs))
  \/ ev = WriteHtml p VENDOR_DIR_NAME (to_breadcrumbs p)
                    (sort_by by_name ds ++ sort_by by_date_desc fs).
Proof. unfold write_listings. destruct j, h; simpl; intuition. Qed.

Lemma visit_events_below p items dirs files :
  Forall (fun ev => below p (event_path ev))
         (fst (visit_children generate_index p items dirs files)).
Proof.
  apply visit_trace_forall. intros nm c _.
  eapply Forall_impl; [|apply generate_index_paths].
  intros ev Hev. apply (below_join p nm). exact Hev.
Qed.

(** The listings of a directory come from one successful pass over its
    children. *)
Lemma own_events p md rd j h items ev :
  In ev (fst (generate_index p (FDir md rd j h items))) -> own_write p ev ->
  exists ds fs t, visit_children generate_index p items [] [] = (t, Ok (ds, fs))
                  /\ In ev (fst (write_listings p j h ds fs)).
Proof.
  destruct rd; [|simpl; intros [<-|[]] []].
  rewrite generate_index_dir, bind_fst. simpl.
  intros [<-|Hin] Hown; [contradiction|].
  rewrite bind_fst in Hin. apply in_app_or in Hin as [Hin|Hin].
  - exfalso. eapply own_write_not_below; [|exact Hown].
    exact (proj1 (Forall_forall _ _) (visit_events_below p items [] []) ev Hin).
  - destruct (visit_children generate_index p items [] []) as [t [[ds fs]|e]];
      [|contradiction].
    eauto.
Qed.

(** A directory whose read fails, or whose loop fails, writes no listing
    and fails. *)
Lemma generate_index_loop_err p md rd j h items :
  rd = false \/ (exists e, snd (visit_children generate_index p items [] []) = Err e) ->
  (exists e', snd (generate_index p (FDir md rd j h items)) = Err e')
  /\ Forall (fun ev => ~ own_write p ev) (fst (generate_index p (FDir md rd j h items))).
Proof.
  intros [->|[e He]].
  - split; [eexists; reflexivity|]. repeat constructor. simpl. tauto.
  - destruct rd.
    + rewrite generate_index_dir, bind_snd, bind_fst. simpl.
      rewrite bind_snd, bind_fst, He. split; [eauto|].
      constructor; [simpl; tauto|]. rewrite app_nil_r.
      eapply Forall_impl; [|apply visit_events_below].
      intros ev Hb. apply own_write_not_below. exact Hb.
    + split; [eexists; reflexivity|]. repeat constructor. simpl. tauto.
Qed.

(** A failure anywhere below a directory makes the visit of the directory
    fail before it writes its listings. *)
Lemma ancestors_fail n p s q e :
  descendant n p s q -> snd (generate_index q s) = Err e ->
  (exists e', snd (generate_index p n) = Err e')
  /\ Forall (fun ev => ~ own_write p ev) (fst (generate_index p n)).
Proof.
  intros Hd Hs. induction Hd as [md rd j h items p nm c Hin Hig Hdir
                                | md rd j h items p nm c s q Hin Hig Hdir _ IH].
  - apply generate_index_loop_err. right.
    eapply visit_children_err; [exact Hin | exact Hig | right; eauto].
  - apply generate_index_loop_err. right.
    destruct (IH Hs) as [[e' He'] _].
    eapply visit_children_err; [exact Hin | exact Hig | right; eauto].
Qed.

Lemma ignore_join_iff p nm : ignore (join p nm) = true <-> In nm ignored_names.
Proof.
  unfold ignore, ignored_names, VENDOR_DIR_NAME. rewrite file_name_join.
  rewrite !orb_true_iff, !String.eqb_eq. simpl. intuition.
Qed.

Lemma entries_not_ignored keep p items es :
  Forall2 (entry_of p) (child_entries keep p items) es ->
  Forall (fun e => ~ In (e_name e) ignored_names) es.
Proof.
  intros H. apply Forall_forall. intros e He.
  destruct (Forall2_In_r _ _ _ _ H He) as [[nm c] [Hin Hent]].
  apply child_entries_In in Hin as [_ [Hig _]].
  unfold entry_of in Hent. simpl in Hent. apply entry_new_ok in Hent as [-> _].
  intros Hn. apply (ignore_join_iff p) in Hn. congruence.
Qed.

Lemma visit_children_filter gen p items dirs files :
  visit_children gen p items dirs files
  = visit_children gen p (filter (listed_item p) items) dirs files.
Proof.
  revert dirs files.
  induction items as [|[[nm c]|] items IH]; intros dirs files; [reflexivity| |apply IH].
  cbn [filter listed_item]. destruct (ignore (join p nm)) eqn:Hig; cbn [negb].
  - cbn [visit_children]. rewrite Hig. apply IH.
  - cbn [visit_children]. rewrite Hig.
    destruct (entry_new (join p nm) c); [|reflexivity].
    rewrite !bind_lift_ok. destruct (is_dir_node c); [|apply IH].
    rewrite (IH (dirs ++ [a]) files). reflexivity.
Qed.

Lemma generate_index_filter p md rd j h items :
  generate_index p (FDir md rd j h items)
  = generate_index p (FDir md rd j h (filter (listed_item p) items)).
Proof.
  destruct rd; [|reflexivity].
  rewrite !generate_index_dir, visit_children_filter. reflexivity.
Qed.

(* ------------------------------------------------------------------ *)
(** ** The claims about [generate_index] *)

(** C10: the events of the visit of a directory [p] are its log line, then
    everything its subdirectories do, then its own two listings; and when
    the visit of any directory below [p] fails, the visit of [p] fails
    too, without writing a listing of [p]. *)
Theorem C10_children_before_parent (p : path) (n : fsnode) :
  (exists sub own, fst (generate_index p n) = Log p :: sub ++ own
     /\ Forall (fun ev => below p (event_path ev)) sub
     /\ Forall (own_write p) own)
  /\ (forall s q e, descendant n p s q -> snd (generate_index q s) = Err e ->
        (exists e', snd (generate_index p n) = Err e')
        /\ Forall (fun ev => ~ own_write p ev) (fst (generate_index p n))).
Proof.
  split.
  - induction n as [md|md [] j h items _|t IHt] using fsnode_ind'.
    + exists [], []. repeat split; constructor.
    + rewrite generate_index_dir, bind_fst. simpl. rewrite bind_fst.
      exists (fst (visit_children generate_index p items [] [])).
      eexists. split; [reflexivity|]. split; [apply visit_events_below|].
      destruct (snd _); [apply write_listings_own | constructor].
    + exists [], []. repeat split; constructor.
    + destruct t as [c|]; [exact (IHt c eq_refl)|].
      exists [], []. repeat split; constructor.
  - intros s q e Hd Hs. exact (ancestors_fail n p s q e Hd Hs).
Qed.

(** C1 (amended): an item the directory iterator yields as an error is
    skipped and the visit goes on with the next items; but when the
    metadata of a non-ignored child cannot be read, the visit of its
    directory fails without writing that directory's listings, and so does
    the visit of every directory above it. *)
Theorem C1_child_errors_amended :
  (forall p md rd j h pre post,
      generate_index p (FDir md rd j h (pre ++ None :: post))
      = generate_index p (FDir md rd j h (pre ++ post)))
  /\ (forall p md rd j h items nm c,
      In (Some (nm, c)) items -> ignore (join p nm) = false -> node_meta c = None ->
      (exists e, snd (generate_index p (FDir md rd j h items)) = Err e)
      /\ Forall (fun ev => ~ own_write p ev) (fst (generate_index p (FDir md rd j h items)))
      /\ (forall n a, descendant n a (FDir md rd j h items) p ->
            (exists e, snd (generate_index a n) = Err e)
            /\ Forall (fun ev => ~ own_write a ev) (fst (generate_index a n)))).
Proof.
  split.
  { intros p md rd j h pre post.
    rewrite generate_index_filter, (generate_index_filter p md rd j h (pre ++ post)).
    rewrite !filter_app. reflexivity. }
  intros p md rd j h items nm c Hin Hig Hm.
  assert (Hself := generate_index_loop_err p md rd j h items).
  destruct Hself as [[e He] Hno].
  { destruct rd; [right|left; reflexivity].
    eapply visit_children_err; [exact Hin | exact Hig | left; exact Hm]. }
  split; [eauto|]. split; [exact Hno|].
  intros n a Hd. eapply ancestors_fail; [exact Hd | exact He].
Qed.

(** C1: a child whose metadata cannot be read aborts the visit: its
    sibling [good.txt] is never listed and no listing is written. *)
Lemma C1_metadata_failure_counterexample :
  generate_index root_path
    (FDir (Some (mkMeta 0 0)) true true true
       [Some ("bad", FFile None); Some ("good.txt", FFile (Some (mkMeta 4 1)))])
  = ([Log root_path], Err MetadataFailed).
Proof. reflexivity. Qed.

(** C5 (amended): the [index.json] written for a directory lists exactly
    its enumerated, non-ignored children whose own file type is not a
    directory: files and symbolic links, so a link to a directory is
    listed, with the size ["directory"]; newest first by the modification
    time read through links; each with its name, date and size (the
    serialised [JsonEntry] has no other field). *)
Theorem C5_json_listing (p : path) md rd j h items (es : list JsonEntry) :
  In (WriteJson p es) (fst (generate_index p (FDir md rd j h items))) ->
  Permutation (map je_name es) (map fst (file_children p items))
  /\ Sorted (fun a b => (je_date b <= je_date a)%Z) es
  /\ Forall (fun je => exists c m,
               In (Some (je_name je, c)) items
               /\ ignore (join p (je_name je)) = false
               /\ is_dir_node c = false
               /\ node_meta c = Some m
               /\ je_date je = m_modified m
               /\ je_size je = if path_is_dir c then SizeDirectory else SizeBytes (m_len m)) es.
Proof.
  intros Hin.
  destruct (own_events _ _ _ _ _ _ _ Hin eq_refl) as [ds [fs [t [Hv Hw]]]].
  apply write_listings_events in Hw as [Hw|Hw]; [|discriminate].
  injection Hw as ->.
  apply visit_children_ok in Hv as [ds0 [fs0 [_ [-> [_ Hfs]]]]]. simpl.
  split; [|split].
  - rewrite map_map. simpl.
    rewrite <- (Forall2_entry_names _ _ _ Hfs).
    apply Permutation_map. apply sort_by_perm.
  - apply Sorted_map_iff. apply files_sorted.
  - apply Forall_forall. intros je Hje. apply in_map_iff in Hje as [e [<- He]].
    apply (Permutation_in _ (sort_by_perm by_date_desc fs0)) in He.
    destruct (Forall2_In_r _ _ _ _ Hfs He) as [[nm c] [Hc Hent]].
    apply child_entries_In in Hc as [Hc [Hig Hnd]].
    unfold entry_of in Hent. simpl in Hent.
    apply entry_new_ok in Hent as [Hn [_ [m [Hm [Hd Hs]]]]].
    apply negb_true_iff in Hnd. exists c, m. simpl. rewrite Hn. auto 7.
Qed.

(** C5: [index.json] lists the symbolic link [link] to the directory
    [sub], with the size ["directory"]. *)
Lemma C5_symlinked_dir_counterexample :
  In (WriteJson root_path sym_json) (fst (generate_index root_path sym_tree))
  /\ is_dir_node (FLink (Some sample_sub)) = false
  /\ path_is_dir (FLink (Some sample_sub)) = true.
Proof. split; [vm_compute; auto 10 | split; reflexivity]. Qed.



(** C7: a path is ignored exactly when its last component is [_vendor],
    [index.html] or [index.json]; for the entries of a directory this is
    their name; and no listing written anywhere in the tree names such an
    entry. *)
Theorem C7_ignored_never_listed :
  (forall p, ignore p = true <-> exists nm, file_name p = Some nm /\ In nm ignored_names)
  /\ (forall p nm, ignore (join p nm) = true <-> In nm ignored_names)
  /\ (forall n p, Forall (fun ev => Forall (fun nm => ~ In nm ignored_names) (listed_names ev))
                         (fst (generate_index p n))).
Proof.
  split; [|split; [exact ignore_join_iff|]].
  - intros p. unfold ignore, ignored_names, VENDOR_DIR_NAME.
    destruct (file_name p) as [f|].
    + rewrite !orb_true_iff, !String.eqb_eq. simpl.
      split; [intros H; exists f; intuition congruence|].
      intros [nm [E H]]. injection E as <-. intuition.
    + split; [discriminate|]. intros [nm [E _]]. discriminate.
  - intros n. induction n as [md|md rd j h items IH|t IHt] using fsnode_ind'; intros p.
    3:{ destruct t as [c|]; [exact (IHt c eq_refl p) | simpl; repeat constructor]. }
    + simpl. repeat constructor.
    + destruct rd; [|simpl; repeat constructor].
      rewrite generate_index_dir, bind_fst. simpl. constructor; [constructor|].
      rewrite bind_fst. apply Forall_app. split.
      * apply visit_trace_forall. intros nm c Hin. apply (IH nm c Hin).
      * destruct (visit_children generate_index p items [] []) as [t [[ds fs]|e]] eqn:Hv;
          [|constructor].
        simpl. apply visit_children_ok in Hv as [ds0 [fs0 [-> [-> [Hds Hfs]]]]].
        apply Forall_forall. intros ev Hev.
        apply write_listings_events in Hev as [->| ->]; simpl.
        -- rewrite map_map. simpl. apply Forall_map.
           apply (Permutation_Forall (Permutation_sym (sort_by_perm by_date_desc fs0))).
           exact (entries_not_ignored _ _ _ _ Hfs).
        -- apply Forall_map. apply Forall_app. split.
           ++ apply (Permutation_Forall (Permutation_sym (sort_by_perm by_name ds0))).
              exact (entries_not_ignored _ _ _ _ Hds).
           ++ apply (Permutation_Forall (Permutation_sym (sort_by_perm by_date_desc fs0))).
              exact (entries_not_ignored _ _ _ _ Hfs).
Qed.

(* ------------------------------------------------------------------ *)
(** ** Provisioning the vendor directory *)

(** C2: when the working directory has no [_vendor] entry (a first run),
    [remove_dir_all] fails with [NotFound] and [main] stops there: nothing
    is created, extracted or indexed. *)
Theorem C2_missing_vendor_dir_aborts assets now md rd j h items :
  lookup_child VENDOR_DIR_NAME items = None ->
  main assets now (FDir md rd j h items) = ([], Err NotFound).
Proof. intros H. unfold main, remove_dir_all. rewrite H. reflexivity. Qed.

(* ------------------------------------------------------------------ *)
(** ** The claims at concrete inputs *)

Lemma C1_child_errors_amended_witness :
  In (Some ("bad", FFile None)) [Some ("bad", FFile None); Some ("good.txt", sample_file 4 1)]
  /\ (exists e, snd (generate_index root_path
                       (FDir (Some (mkMeta 0 0)) true true true
                          [Some ("bad", FFile None); Some ("good.txt", sample_file 4 1)]))
                = Err e).
Proof.
  split; [simpl; auto|].
  exact (proj1 (proj2 C1_child_errors_amended root_path (Some (mkMeta 0 0)) true true true
                  [Some ("bad", FFile None); Some ("good.txt", sample_file 4 1)]
                  "bad" (FFile None) ltac:(simpl; auto) eq_refl eq_refl)).
Defined.

Lemma C2_missing_vendor_dir_aborts_witness :
  lookup_child VENDOR_DIR_NAME sample_items = None
  /\ main [Some ("style.css", sample_file 100 0)] (mkMeta 0 0) sample_tree = ([], Err NotFound).
Proof.
  split; [reflexivity|].
  exact (C2_missing_vendor_dir_aborts [Some ("style.css", sample_file 100 0)] (mkMeta 0 0)
           (Some (mkMeta 0 1)) true true true sample_items eq_refl).
Defined.

Lemma C3_icon_default_amended_witness :
  icon false (components "README") = "blank.gif"
  /\ extension (components "notes.xyz") = Some "xyz"
  /\ icon false (components "notes.xyz") = "text.png".
Proof.
  split; [|split; [reflexivity|]].
  - exact (proj1 (proj2 (C3_icon_default_amended (components "README"))) (or_introl eq_refl)).
  - exact (proj2 (proj2 (C3_icon_default_amended (components "notes.xyz"))) "xyz" eq_refl
             ltac:(simpl; intuition discriminate) ltac:(discriminate) ltac:(discriminate)).
Defined.

Lemma C4_icon_table_witness :
  In ("webp", "image") spec_icon_table
  /\ extension (components "photos/cat.webp") = Some "webp"
  /\ icon false (components "photos/cat.webp") = icon_asset "image".
Proof.
  split; [simpl; tauto | split; [reflexivity|]].
  exact (proj1 C4_icon_table (components "photos/cat.webp") "webp" "image"
           ltac:(simpl; tauto) eq_refl).
Defined.

Lemma C5_json_listing_witness :
  In (WriteJson root_path sample_json) (fst (generate_index root_path sample_tree))
  /\ Permutation (map je_name sample_json) (map fst (file_children root_path sample_items))
  /\ Sorted (fun a b => (je_date b <= je_date a)%Z) sample_json.
Proof.
  assert (H : In (WriteJson root_path sample_json) (fst (generate_index root_path sample_tree)))
    by (vm_compute; auto 10).
  split; [exact H|].
  destruct (C5_json_listing root_path (Some (mkMeta 0 1)) true true true sample_items
              sample_json H) as [H1 [H2 _]].
  split; [exact H1 | exact H2].
Defined.


Lemma C7_ignored_never_listed_witness :
  ignore (join root_path "index.json") = true /\ In "index.json" ignored_names.
Proof.
  split; [reflexivity|].
  exact (proj1 (proj1 (proj2 C7_ignored_never_listed) root_path "index.json") eq_refl).
Defined.

Lemma C9_breadcrumbs_root_to_leaf_witness :
  to_breadcrumbs (join (join (join root_path "x") "y") "z")
  = [mkBreadcrumb "x" "x"; mkBreadcrumb "y" "x/y"; mkBreadcrumb "z" "x/y/z"].
Proof.
  exact (proj1 (C9_breadcrumbs_root_to_leaf "x" "y" "z"
                  ltac:(discriminate) ltac:(discriminate) ltac:(discriminate))).
Defined.

Lemma C10_children_before_parent_witness :
  descendant (FDir (Some (mkMeta 0 1)) true true true broken_items) root_path
             broken_sub (join root_path "sub")
  /\ snd (generate_index (join root_path "sub") broken_sub) = Err ReadDirFailed
  /\ Forall (fun ev => ~ own_write root_path ev)
       (fst (generate_index root_path (FDir (Some (mkMeta 0 1)) true true true broken_items))).
Proof.
  assert (Hd : descendant (FDir (Some (mkMeta 0 1)) true true true broken_items) root_path
                          broken_sub (join root_path "sub"))
    by (apply desc_child; [simpl; auto | reflexivity | reflexivity]).
  split; [exact Hd | split; [reflexivity|]].
  exact (proj2 (proj2 (C10_children_before_parent root_path
                          (FDir (Some (mkMeta 0 1)) true true true broken_items))
                  broken_sub (join root_path "sub") ReadDirFailed Hd eq_refl)).
Defined.

(* ------------------------------------------------------------------ *)
(** ** Further properties of the code *)

(** The items the loop skips (iterator errors, and the stale [index.json],
    [index.html] or a [_vendor] entry) do not change the visit of a
    directory at all; a directory holding nothing else gets two empty
    listings. *)
Theorem X_skipped_items_irrelevant p md rd j h items :
  generate_index p (FDir md rd j h items)
  = generate_index p (FDir md rd j h (filter (listed_item p) items))
  /\ (Forall (fun it => listed_item p it = false) items ->
      generate_index p (FDir md true true true items)
      = ([Log p; WriteJson p []; WriteHtml p VENDOR_DIR_NAME (to_breadcrumbs p) []], Ok tt)).
Proof.
  split; [apply generate_index_filter|].
  intros Hall. rewrite generate_index_filter.
  replace (filter (listed_item p) items) with (@nil (option (string * fsnode))).
  - reflexivity.
  - induction Hall as [|it items Hit _ IH]; [reflexivity|]. simpl. rewrite Hit. exact IH.
Qed.

Lemma visit_trace_forall_listed (Q : event -> Prop) gen p items dirs files :
  (forall nm c, In (Some (nm, c)) items -> ignore (join p nm) = false ->
                Forall Q (fst (gen (join p nm) c))) ->
  Forall Q (fst (visit_children gen p items dirs files)).
Proof.
  revert dirs files.
  induction items as [|[[nm c]|] items IH]; intros dirs files Hch; cbn [visit_children].
  - constructor.
  - destruct (ignore (join p nm)) eqn:Hig.
    + apply IH. intros; apply Hch; [right|]; assumption.
    + destruct (entry_new (join p nm) c) as [e|e];
        [rewrite bind_lift_ok | rewrite bind_lift_err; constructor].
      destruct (is_dir_node c).
      * rewrite bind_fst. apply Forall_app. split; [apply Hch; [left|]; auto|].
        destruct (snd (gen (join p nm) c)); [|constructor].
        apply IH. intros; apply Hch; [right|]; assumption.
      * apply IH. intros; apply Hch; [right|]; assumption.
  - apply IH. intros; apply Hch; [right|]; assumption.
Qed.

(** The traversal never enters, and never writes into, a directory whose
    name is [_vendor], [index.html] or [index.json], at any depth: every
    event of the visit of [p] is at [p] extended by non-ignored names. *)
Theorem X_never_enters_ignored (n : fsnode) :
  forall p, Forall (fun ev => no_ignored_below p (event_path ev)) (fst (generate_index p n)).
Proof.
  assert (Hhere : forall p, no_ignored_below p p)
    by (intros p; exists []; rewrite app_nil_r; split; [reflexivity | constructor]).
  induction n as [md|md rd j h items IH|t IHt] using fsnode_ind'; intros p.
  3:{ destruct t as [c|]; [exact (IHt c eq_refl p) | simpl; repeat constructor; apply Hhere]. }
  - simpl. repeat constructor. apply Hhere.
  - destruct rd; [|simpl; repeat constructor; apply Hhere].
    rewrite generate_index_dir, bind_fst. simpl. constructor; [apply Hhere|].
    rewrite bind_fst. apply Forall_app. split.
    + apply visit_trace_forall_listed. intros nm c Hin Hig.
      eapply Forall_impl; [|apply (IH nm c Hin (join p nm))].
      intros ev [ns [Hq Hns]]. exists (nm :: ns). split.
      * rewrite Hq. unfold join. rewrite <- app_assoc. reflexivity.
      * constructor; [|exact Hns]. intros Hn. apply (ignore_join_iff p) in Hn. congruence.
    + destruct (snd _); [|constructor].
      eapply Forall_impl; [|apply write_listings_own]. intros ev Hev.
      destruct ev; simpl in *; try contradiction; subst; apply Hhere.
Qed.





Lemma Forall_sort_by {A} (cmp : A -> A -> comparison) (Q : A -> Prop) l :
  Forall Q l -> Forall Q (sort_by cmp l).
Proof.
  rewrite !Forall_forall. intros H x Hx. apply H.
  apply (Permutation_in _ (sort_by_perm cmp l)). exact Hx.
Qed.

(** Both listings of a directory come from the same pass: [index.html]
    gets the [_vendor] prefix and the breadcrumbs of the directory, and its
    entries are one entry per subdirectory followed by exactly the entries
    whose records, in the same order, make up [index.json]. *)
Theorem X_json_html_agree p md rd j h items es v bc hs :
  In (WriteJson p es) (fst (generate_index p (FDir md rd j h items))) ->
  In (WriteHtml p v bc hs) (fst (generate_index p (FDir md rd j h items))) ->
  v = VENDOR_DIR_NAME /\ bc = to_breadcrumbs p
  /\ exists ds fs, hs = ds ++ fs
     /\ map to_json fs = es
     /\ List.length ds = List.length (dir_children p items).
Proof.
  intros Hj Hh.
  destruct (own_events _ _ _ _ _ _ _ Hj eq_refl) as [ds1 [fs1 [t1 [Hv1 Hw1]]]].
  destruct (own_events _ _ _ _ _ _ _ Hh eq_refl) as [ds2 [fs2 [t2 [Hv2 Hw2]]]].
  rewrite Hv1 in Hv2. injection Hv2 as <- <- <-.
  apply write_listings_events in Hw1 as [Hw1|Hw1]; [|discriminate].
  apply write_listings_events in Hw2 as [Hw2|Hw2]; [discriminate|].
  injection Hw1 as ->. injection Hw2 as -> -> ->.
  split; [reflexivity|]. split; [reflexivity|].
  apply visit_children_ok in Hv1 as [ds [fs [-> [-> [Hd _]]]]].
  exists (sort_by by_name ds), (sort_by by_date_desc fs).
  split; [reflexivity | split; [reflexivity|]].
  rewrite (Permutation_length (sort_by_perm by_name ds)).
  symmetry. exact (Forall2_length Hd).
Qed.

Lemma icon_file_not_dir p : icon false p <> "dir.png".
Proof.
  unfold icon. cbv zeta.
  repeat match goal with |- context [if ?b then _ else _] => destruct b end;
    discriminate.
Qed.

Lemma entry_new_fields p nm c e :
  entry_new (join p nm) c = Ok e ->
  e_path e = to_web_path (join p nm) /\ e_icon e = icon (path_is_dir c) (join p nm).
Proof.
  unfold entry_new. destruct (node_meta c); [|discriminate].
  intros E. injection E as <-. split; reflexivity.
Qed.

(** Every entry of [index.html] links to the web path of the child it
    describes, and carries the folder icon exactly when its size reads
    ["directory"] (both come from [path.is_dir()]): no entry with a byte
    size is shown with [dir.png]. *)
Theorem X_entry_links_icons p md rd j h items v bc hs :
  In (WriteHtml p v bc hs) (fst (generate_index p (FDir md rd j h items))) ->
  Forall (fun e => e_path e = to_web_path (join p (e_name e))
                   /\ (e_icon e = "dir.png" <-> e_size e = SizeDirectory)) hs.
Proof.
  intros Hh.
  destruct (own_events _ _ _ _ _ _ _ Hh eq_refl) as [ds1 [fs1 [t [Hv Hw]]]].
  apply write_listings_events in Hw as [Hw|Hw]; [discriminate|].
  injection Hw as _ _ ->.
  apply visit_children_ok in Hv as [ds [fs [-> [-> [Hd Hf]]]]].
  assert (Hent : forall L e, Forall2 (entry_of p) L e ->
            Forall (fun e => e_path e = to_web_path (join p (e_name e))
                             /\ (e_icon e = "dir.png" <-> e_size e = SizeDirectory)) e).
  { intros L es HL. apply Forall_forall. intros e He.
    destruct (Forall2_In_r _ _ _ _ HL He) as [[nm c] [_ Ho]].
    unfold entry_of in Ho. simpl in Ho.
    destruct (entry_new_fields _ _ _ _ Ho) as [Hp Hi].
    apply entry_new_ok in Ho as [Hn [_ [m [_ [_ Hsz]]]]].
    rewrite Hn, Hp, Hi, Hsz. split; [reflexivity|].
    destruct (path_is_dir c); [tauto|].
    split; [intros E; exfalso; exact (icon_file_not_dir _ E) | discriminate]. }
  apply Forall_app. split; apply Forall_sort_by; eapply Hent; eassumption.
Qed.

Section Stable.
Context {A K : Type} (cmp : A -> A -> comparison) (key : A -> K) (keq : K -> K -> bool).
Hypothesis keq_spec : forall x y, keq x y = true <-> x = y.
Hypothesis cmp_gt_key : forall a b, cmp a b = Gt -> key a <> key b.

Lemma insert_filter_key d x l :
  filter (fun a => keq (key a) d) (insert cmp x l) = filter (fun a => keq (key a) d) (x :: l).
Proof.
  induction l as [|y l IH]; [reflexivity|]. simpl insert.
  destruct (cmp x y) eqn:E; try reflexivity.
  cbn [filter]. rewrite IH. cbn [filter].
  destruct (keq (key x) d) eqn:Hx, (keq (key y) d) eqn:Hy; try reflexivity.
  exfalso. apply keq_spec in Hx, Hy. apply (cmp_gt_key x y E). congruence.
Qed.

Lemma sort_by_filter_key d l :
  filter (fun a => keq (key a) d) (sort_by cmp l) = filter (fun a => keq (key a) d) l.
Proof.
  induction l as [|x l IH]; [reflexivity|]. simpl sort_by.
  rewrite insert_filter_key. cbn [filter]. rewrite IH. reflexivity.
Qed.
End Stable.

Lemma by_date_desc_gt_key a b : by_date_desc a b = Gt -> e_date a <> e_date b.
Proof. unfold by_date_desc. intros E Hd. rewrite Hd, Z.compare_refl in E. discriminate. Qed.

Lemma filter_map_to_json (P : JsonEntry -> bool) l :
  filter P (map to_json l) = map to_json (filter (fun e => P (to_json e)) l).
Proof.
  induction l as [|x l IH]; [reflexivity|]. simpl.
  destruct (P (to_json x)); simpl; rewrite IH; reflexivity.
Qed.

(** The sort of the files by date is stable: in [index.json], files with
    the same modification time keep the order in which the directory was
    enumerated. *)
Theorem X_equal_dates_keep_enumeration_order p md rd j h items es :
  In (WriteJson p es) (fst (generate_index p (FDir md rd j h items))) ->
  exists fs, Forall2 (entry_of p) (file_children p items) fs
    /\ forall d, filter (fun je => (je_date je =? d)%Z) es
                 = map to_json (filter (fun e => (e_date e =? d)%Z) fs).
Proof.
  intros Hj.
  destruct (own_events _ _ _ _ _ _ _ Hj eq_refl) as [ds1 [fs1 [t [Hv Hw]]]].
  apply write_listings_events in Hw as [Hw|Hw]; [|discriminate].
  injection Hw as ->.
  apply visit_children_ok in Hv as [ds [fs [_ [-> [_ Hf]]]]].
  exists fs. split; [exact Hf|]. intros d.
  rewrite filter_map_to_json. simpl.
  rewrite (sort_by_filter_key by_date_desc e_date Z.eqb Z.eqb_eq by_date_desc_gt_key).
  reflexivity.
Qed.

Lemma visit_ok_children p items dirs files t r :
  visit_children generate_index p items dirs files = (t, Ok r) ->
  forall nm c, In (Some (nm, c)) items -> ignore (join p nm) = false -> is_dir_node c = true ->
  snd (generate_index (join p nm) c) = Ok tt /\ incl (fst (generate_index (join p nm) c)) t.
Proof.
  revert dirs files t.
  induction items as [|[[nm0 c0]|] items IH]; intros dirs files t; cbn [visit_children].
  - intros _ nm c [].
  - destruct (ignore (join p nm0)) eqn:Hig.
    + intros Hv nm c [E|Hin] Hi Hd; [injection E as -> ->; congruence|]. eapply IH; eauto.
    + destruct (entry_new (join p nm0) c0) as [e|e];
        [rewrite bind_lift_ok | rewrite bind_lift_err; discriminate].
      destruct (is_dir_node c0) eqn:Hd0.
      * intros Hb. apply bind_ok_inv in Hb as [t1 [u [t2 [Hg [Hk ->]]]]].
        intros nm c [E|Hin] Hi Hd.
        -- injection E as -> ->. rewrite Hg. destruct u. split; [reflexivity|].
           apply incl_appl, incl_refl.
        -- destruct (IH _ _ _ Hk nm c Hin Hi Hd) as [H1 H2].
           split; [exact H1|]. apply incl_appr. exact H2.
      * intros Hv nm c [E|Hin] Hi Hd; [injection E as -> ->; congruence|]. eapply IH; eauto.
  - intros Hv nm c [E|Hin]; [discriminate|]. eapply IH; eauto.
Qed.

Lemma gen_ok_children p md rd j h items :
  snd (generate_index p (FDir md rd j h items)) = Ok tt ->
  exists t r, visit_children generate_index p items [] [] = (t, Ok r)
              /\ incl t (fst (generate_index p (FDir md rd j h items))).
Proof.
  destruct rd; [|discriminate].
  destruct (visit_children generate_index p items [] []) as [t [r|e]] eqn:Hv.
  - intros _. exists t, r. split; [reflexivity|].
    rewrite generate_index_dir, bind_fst. simpl. rewrite bind_fst, Hv. simpl.
    intros x Hx. right. apply in_or_app. left. exact Hx.
  - rewrite generate_index_dir, bind_snd. simpl. rewrite bind_snd, Hv. discriminate.
Qed.

Lemma gen_ok_writes q s :
  snd (generate_index q s) = Ok tt ->
  exists es v bc hs, In (WriteJson q es) (fst (generate_index q s))
                     /\ In (WriteHtml q v bc hs) (fst (generate_index q s)).
Proof.
  induction s as [md|md rd j h items _|t IHt] using fsnode_ind'; [discriminate| |].
  2:{ destruct t as [c|]; [exact (IHt c eq_refl) | discriminate]. }
  destruct rd; [|discriminate].
  rewrite generate_index_dir, bind_snd, bind_fst. simpl. rewrite bind_snd, bind_fst.
  destruct (visit_children generate_index q items [] []) as [t [[ds fs]|e]]; [|discriminate].
  destruct j, h; simpl; try discriminate. intros _.
  do 4 eexists. split; right; apply in_or_app; right; simpl; auto.
Qed.

Lemma descendant_ok n p s q :
  descendant n p s q -> snd (generate_index p n) = Ok tt ->
  snd (generate_index q s) = Ok tt /\ incl (fst (generate_index q s)) (fst (generate_index p n)).
Proof.
  induction 1 as [md rd j h items p nm c Hin Hig Hd | md rd j h items p nm c s q Hin Hig Hd _ IH];
    intros Hok; destruct (gen_ok_children _ _ _ _ _ _ Hok) as [t [r [Hv Hincl]]];
    destruct (visit_ok_children _ _ _ _ _ _ Hv nm c Hin Hig Hd) as [H1 H2].
  - split; [exact H1 | eapply incl_tran; eauto].
  - destruct (IH H1) as [H3 H4]. split; [exact H3|].
    eapply incl_tran; [exact H4|]. eapply incl_tran; eauto.
Qed.

(** A run that succeeds has read every directory it reached and written
    both [index.json] and [index.html] into each of them: the starting
    directory and every non-ignored subdirectory at any depth. *)
Theorem X_success_lists_every_directory p n :
  snd (generate_index p n) = Ok tt ->
  forall s q, (s = n /\ q = p) \/ descendant n p s q ->
  snd (generate_index q s) = Ok tt
  /\ exists es v bc hs, In (WriteJson q es) (fst (generate_index p n))
                        /\ In (WriteHtml q v bc hs) (fst (generate_index p n)).
Proof.
  intros Hok s q [[-> ->]|Hd]; [split; [exact Hok | apply gen_ok_writes; exact Hok]|].
  destruct (descendant_ok _ _ _ _ Hd Hok) as [H1 H2]. split; [exact H1|].
  destruct (gen_ok_writes _ _ H1) as (es & v & bc & hs & A & B).
  exists es, v, bc, hs. split; apply H2; assumption.
Qed.

Lemma str_app_assoc a b c : (a ++ b ++ c)%string = ((a ++ b) ++ c)%string.
Proof. induction a as [|x a IH]; simpl; congruence. Qed.

Lemma concat_cons sep a l :
  l <> [] -> String.concat sep (a :: l) = (a ++ sep ++ String.concat sep l)%string.
Proof. destruct l; [contradiction | reflexivity]. Qed.

Lemma concat_snoc sep L x :
  L <> [] -> String.concat sep (L ++ [x]) = (String.concat sep L ++ sep ++ x)%string.
Proof.
  induction L as [|a L IH]; intros HL; [contradiction|].
  destruct L as [|b L]; [reflexivity|].
  change ((a :: b :: L) ++ [x]) with (a :: ((b :: L) ++ [x])).
  rewrite concat_cons by (destruct L; discriminate).
  rewrite IH by discriminate. rewrite (concat_cons sep a (b :: L)) by discriminate.
  rewrite !str_app_assoc. reflexivity.
Qed.

(** The web path of a child is the web path of its directory, a ['/'] and
    the child's name; under a directory whose web path is empty (the root
    ["."]) it is the bare name. *)
Theorem X_web_path_join p nm :
  nm <> "" ->
  to_web_path (join p nm)
  = if to_web_path p =? "" then nm else (to_web_path p ++ "/" ++ nm)%string.
Proof.
  intros Hnm. unfold to_web_path, join. rewrite map_app, filter_app.
  cbn [map filter web_segment]. apply String.eqb_neq in Hnm. rewrite Hnm. cbn [negb].
  remember (filter (fun s => negb (s =? "")) (map web_segment p)) as L eqn:HL.
  destruct L as [|a L']; [reflexivity|].
  assert (Ha : a <> "").
  { assert (Hin : In a (a :: L')) by (left; reflexivity). rewrite HL in Hin.
    apply filter_In in Hin as [_ Hin]. apply negb_true_iff, String.eqb_neq in Hin. exact Hin. }
  rewrite concat_snoc by discriminate.
  replace (String.concat "/" (a :: L') =? "") with false; [reflexivity|].
  symmetry. apply String.eqb_neq. destruct L' as [|b L'].
  - exact Ha.
  - rewrite concat_cons by discriminate. destruct a; [contradiction | discriminate].
Qed.

Lemma web_base b ns :
  Forall (fun c => web_segment c = "") b -> Forall (fun x => x <> "") ns ->
  to_web_path (b ++ map Normal ns) = String.concat "/" ns.
Proof.
  intros Hb H. unfold to_web_path. rewrite map_app, filter_app.
  replace (filter (fun s => negb (s =? "")) (map web_segment b)) with (@nil string).
  - simpl. f_equal. rewrite map_map. simpl. rewrite map_id.
    induction H as [|x ns Hx H IH]; [reflexivity|].
    simpl. apply String.eqb_neq in Hx. rewrite Hx. simpl. f_equal. exact IH.
  - induction Hb as [|c b Hc _ IH]; [reflexivity|]. simpl. rewrite Hc. exact IH.
Qed.

Lemma crumbs_loop_base b Bc ns fuel :
  (forall f, crumbs_loop (S f) (Some b) = Bc) ->
  Forall (fun c => web_segment c = "") b ->
  Forall (fun x => x <> "") ns -> List.length ns < fuel ->
  crumbs_loop fuel (Some (b ++ map Normal ns))
  = rev (map (crumb_at ns) (seq 1 (List.length ns))) ++ Bc.
Proof.
  intros HB Hb. revert fuel. induction ns as [|x ns IH] using rev_ind; intros fuel Hne Hf.
  - destruct fuel; [simpl in Hf; lia|]. rewrite app_nil_r. apply HB.
  - apply Forall_app in Hne as [Hns Hx]. inversion Hx; subst.
    destruct fuel as [|fuel]; [simpl in Hf; lia|].
    rewrite length_app in Hf. simpl in Hf.
    assert (Hsplit : b ++ map Normal (ns ++ [x]) = (b ++ map Normal ns) ++ [Normal x])
      by (rewrite map_app, app_assoc; reflexivity).
    simpl crumbs_loop.
    rewrite path_eqb_neq.
    2:{ rewrite Hsplit. intros E. change [CurDir] with ([] ++ [CurDir]) in E.
        apply app_inj_tail in E as [_ E]. discriminate. }
    assert (Hfn : file_name (b ++ map Normal (ns ++ [x])) = Some x).
    { rewrite Hsplit. unfold file_name. rewrite map_app.
      change (map Some [Normal x]) with [Some (Normal x)]. rewrite last_last. reflexivity. }
    assert (Hpar : parent (b ++ map Normal (ns ++ [x])) = Some (b ++ map Normal ns)).
    { rewrite Hsplit. unfold parent. rewrite map_app.
      change (map Some [Normal x]) with [Some (Normal x)]. rewrite last_last, removelast_last.
      reflexivity. }
    rewrite Hfn, Hpar, web_base by (auto; apply Forall_app; auto).
    rewrite IH by (auto; lia).
    rewrite length_app. simpl. rewrite Nat.add_1_r, seq_S, map_app, rev_app_distr.
    simpl. f_equal.
    + unfold crumb_at. rewrite firstn_all2 by (rewrite length_app; simpl; lia).
      rewrite last_last. reflexivity.
    + f_equal. f_equal. apply map_ext_in. intros k Hk. apply in_seq in Hk.
      unfold crumb_at. rewrite firstn_app.
      replace (k - List.length ns) with 0 by lia. simpl. rewrite app_nil_r. reflexivity.
Qed.

(** [to_breadcrumbs] stops only at ["."]: a relative path that does not
    start with ["."], or an absolute one, gets one more crumb at the front,
    with an empty name and an empty link, before the crumbs of its
    directories. *)
Theorem X_breadcrumbs_outside_root ns :
  Forall (fun x => x <> "") ns ->
  to_breadcrumbs (map Normal ns)
  = mkBreadcrumb "" "" :: map (crumb_at ns) (seq 1 (List.length ns))
  /\ to_breadcrumbs (RootDir :: map Normal ns)
     = mkBreadcrumb "" "" :: map (crumb_at ns) (seq 1 (List.length ns)).
Proof.
  intros H. unfold to_breadcrumbs. split.
  - pose proof (crumbs_loop_base [] [mkBreadcrumb "" ""] ns (S (List.length (map Normal ns)))
                  ltac:(intros f; destruct f; reflexivity) ltac:(constructor) H
                  ltac:(rewrite length_map; lia)) as E.
    rewrite app_nil_l in E.
    transitivity (rev (rev (map (crumb_at ns) (seq 1 (List.length ns))) ++ [mkBreadcrumb "" ""]));
      [f_equal; exact E|].
    rewrite rev_app_distr, rev_involutive. reflexivity.
  - pose proof (crumbs_loop_base [RootDir] [mkBreadcrumb "" ""] ns
                  (S (List.length (RootDir :: map Normal ns)))
                  ltac:(intros f; destruct f; reflexivity) ltac:(repeat constructor) H
                  ltac:(simpl; rewrite length_map; lia)) as E.
    cbn [app] in E.
    transitivity (rev (rev (map (crumb_at ns) (seq 1 (List.length ns))) ++ [mkBreadcrumb "" ""]));
      [f_equal; exact E|].
    rewrite rev_app_distr, rev_involutive. reflexivity.
Qed.

Lemma has_dot_none s : has_dot s = false -> rsplit_dot s = None.
Proof.
  induction s as [|c s IH]; [reflexivity|].
  unfold has_dot. simpl. intros E. apply orb_false_iff in E as [Hc Hs].
  rewrite IH by exact Hs. rewrite Hc. reflexivity.
Qed.

Lemma rsplit_dot_app b a :
  has_dot a = false -> rsplit_dot (b ++ String "." a) = Some (b, a).
Proof.
  intros Ha. induction b as [|c b IH]; simpl.
  - rewrite has_dot_none by exact Ha. reflexivity.
  - rewrite IH. reflexivity.
Qed.

Lemma rsplit_dot_split s b a : rsplit_dot s = Some (b, a) -> s = (b ++ String "." a)%string.
Proof.
  revert b a. induction s as [|c s IH]; intros b a; simpl; [discriminate|].
  destruct (rsplit_dot s) as [[b' a']|] eqn:Hs.
  - intros E. injection E as <- <-. rewrite (IH b' a' eq_refl). reflexivity.
  - destruct (Ascii.eqb c ".") eqn:Hc; [|discriminate].
    intros E. injection E as <- <-. apply Ascii.eqb_eq in Hc. subst. reflexivity.
Qed.

(** [Path::extension] is the text after the last dot of the file name,
    provided a non-empty stem precedes that dot and the name is not
    [".."]: hidden files such as [".bashrc"] and names without a dot have
    none, a name ending in a dot has the empty one. *)
Theorem X_extension_spec p e :
  extension p = Some e <->
  exists f stem, file_name p = Some f /\ f <> ".." /\ stem <> ""
                 /\ f = (stem ++ "." ++ e)%string /\ has_dot e = false.
Proof.
  unfold extension. split.
  - destruct (file_name p) as [f|]; [|discriminate].
    unfold extension_of_file_name.
    destruct (f =? "..") eqn:E1; [discriminate|].
    destruct (rsplit_dot f) as [[b a]|] eqn:Hr; [|discriminate].
    destruct (b =? "") eqn:E2; [discriminate|].
    intros E. injection E as <-. exists f, b.
    apply String.eqb_neq in E1, E2.
    split; [reflexivity | split; [exact E1 | split; [exact E2 | split]]].
    + apply rsplit_dot_split. exact Hr.
    + eapply rsplit_dot_after. exact Hr.
  - intros (f & stem & Hf & Hn & Hs & -> & Hd). rewrite Hf.
    unfold extension_of_file_name. apply String.eqb_neq in Hn. rewrite Hn.
    change ("." ++ e)%string with (String "." e).
    rewrite rsplit_dot_app by exact Hd. apply String.eqb_neq in Hs. rewrite Hs. reflexivity.
Qed.

Lemma visit_not_own p items t r :
  visit_children generate_index p items [] [] = (t, r) -> Forall (fun ev => ~ own_write p ev) t.
Proof.
  intros Hv. pose proof (visit_events_below p items [] []) as Hb. rewrite Hv in Hb.
  eapply Forall_impl; [|exact Hb]. intros ev H. apply own_write_not_below. exact H.
Qed.

(** The listings are written one after the other, [index.json] first, each
    failure returning at once: when [index.json] cannot be written the run
    fails without writing [index.html]; when only [index.html] fails, the
    new [index.json] is already in place. *)
Theorem X_write_failures p md j h items t r :
  visit_children generate_index p items [] [] = (t, Ok r) ->
  (j = false ->
   snd (generate_index p (FDir md true j h items)) = Err WriteFailed
   /\ Forall (fun ev => ~ own_write p ev) (fst (generate_index p (FDir md true j h items))))
  /\ (j = true -> h = false ->
      snd (generate_index p (FDir md true j h items)) = Err WriteFailed
      /\ Forall (fun ev => own_write p ev -> exists es, ev = WriteJson p es)
                (fst (generate_index p (FDir md true j h items)))
      /\ exists es, In (WriteJson p es) (fst (generate_index p (FDir md true j h items)))).
Proof.
  intros Hv. pose proof (visit_not_own _ _ _ _ Hv) as Hn.
  rewrite generate_index_dir, bind_snd, bind_fst. simpl. rewrite bind_snd, bind_fst, Hv. simpl.
  split.
  - intros ->. simpl. split; [reflexivity|].
    constructor; [simpl; tauto|]. rewrite app_nil_r. exact Hn.
  - intros -> ->. simpl. split; [reflexivity|]. split.
    + constructor; [simpl; tauto|]. apply Forall_app. split.
      * eapply Forall_impl; [|exact Hn]. intros ev H1 H2. contradiction.
      * repeat constructor. intros _. eexists. reflexivity.
    + eexists. right. apply in_or_app. right. left. reflexivity.
Qed.

Lemma X_skipped_items_irrelevant_witness :
  Forall (fun it => listed_item root_path it = false)
         [Some ("index.json", sample_file 3 3); None; Some (VENDOR_DIR_NAME, old_vendor)]
  /\ generate_index root_path
       (FDir (Some (mkMeta 0 1)) true true true
          [Some ("index.json", sample_file 3 3); None; Some (VENDOR_DIR_NAME, old_vendor)])
     = ([Log root_path; WriteJson root_path [];
         WriteHtml root_path VENDOR_DIR_NAME (to_breadcrumbs root_path) []], Ok tt).
Proof.
  assert (H : Forall (fun it => listed_item root_path it = false)
                [Some ("index.json", sample_file 3 3); None; Some (VENDOR_DIR_NAME, old_vendor)])
    by (repeat constructor).
  split; [exact H|].
  exact (proj2 (X_skipped_items_irrelevant root_path (Some (mkMeta 0 1)) true true true _) H).
Defined.


Lemma X_json_html_agree_witness :
  In (WriteJson root_path sample_json) (fst (generate_index root_path sample_tree))
  /\ In (WriteHtml root_path VENDOR_DIR_NAME [] sample_html) (fst (generate_index root_path sample_tree))
  /\ exists ds fs, sample_html = ds ++ fs /\ map to_json fs = sample_json.
Proof.
  assert (Hj : In (WriteJson root_path sample_json) (fst (generate_index root_path sample_tree)))
    by (vm_compute; auto 10).
  assert (Hh : In (WriteHtml root_path VENDOR_DIR_NAME [] sample_html)
                  (fst (generate_index root_path sample_tree)))
    by (vm_compute; auto 10).
  split; [exact Hj | split; [exact Hh|]].
  destruct (X_json_html_agree root_path (Some (mkMeta 0 1)) true true true sample_items
              sample_json VENDOR_DIR_NAME [] sample_html Hj Hh)
    as [_ [_ [ds [fs [E [J _]]]]]].
  exists ds, fs. split; [exact E | exact J].
Defined.

Lemma X_entry_links_icons_witness :
  In (WriteHtml root_path VENDOR_DIR_NAME [] sample_html) (fst (generate_index root_path sample_tree))
  /\ Forall (fun e => e_path e = to_web_path (join root_path (e_name e))
                      /\ (e_icon e = "dir.png" <-> e_size e = SizeDirectory)) sample_html.
Proof.
  assert (Hh : In (WriteHtml root_path VENDOR_DIR_NAME [] sample_html)
                  (fst (generate_index root_path sample_tree)))
    by (vm_compute; auto 10).
  split; [exact Hh|].
  exact (X_entry_links_icons root_path (Some (mkMeta 0 1)) true true true sample_items
           VENDOR_DIR_NAME [] sample_html Hh).
Defined.

Lemma X_equal_dates_keep_enumeration_order_witness :
  In (WriteJson root_path sample_json) (fst (generate_index root_path sample_tree))
  /\ exists fs, Forall2 (entry_of root_path) (file_children root_path sample_items) fs
       /\ forall d, filter (fun je => (je_date je =? d)%Z) sample_json
                    = map to_json (filter (fun e => (e_date e =? d)%Z) fs).
Proof.
  assert (Hj : In (WriteJson root_path sample_json) (fst (generate_index root_path sample_tree)))
    by (vm_compute; auto 10).
  split; [exact Hj|].
  exact (X_equal_dates_keep_enumeration_order root_path (Some (mkMeta 0 1)) true true true
           sample_items sample_json Hj).
Defined.

Lemma X_success_lists_every_directory_witness :
  snd (generate_index root_path sample_tree) = Ok tt
  /\ descendant sample_tree root_path sample_sub (join root_path "sub")
  /\ exists es v bc hs,
       In (WriteJson (join root_path "sub") es) (fst (generate_index root_path sample_tree))
       /\ In (WriteHtml (join root_path "sub") v bc hs) (fst (generate_index root_path sample_tree)).
Proof.
  assert (Hok : snd (generate_index root_path sample_tree) = Ok tt) by reflexivity.
  assert (Hd : descendant sample_tree root_path sample_sub (join root_path "sub"))
    by (apply desc_child; [simpl; auto 10 | reflexivity | reflexivity]).
  split; [exact Hok | split; [exact Hd|]].
  exact (proj2 (X_success_lists_every_directory root_path sample_tree Hok
                  sample_sub (join root_path "sub") (or_intror Hd))).
Defined.

Lemma X_web_path_join_witness :
  "b.txt" <> "" /\ to_web_path (join (join root_path "sub") "b.txt") = "sub/b.txt".
Proof.
  split; [discriminate|].
  rewrite (X_web_path_join (join root_path "sub") "b.txt" ltac:(discriminate)).
  reflexivity.
Defined.

Lemma X_breadcrumbs_outside_root_witness :
  Forall (fun x => x <> "") ["x"; "y"]
  /\ to_breadcrumbs (components "x/y")
     = [mkBreadcrumb "" ""; mkBreadcrumb "x" "x"; mkBreadcrumb "y" "x/y"]
  /\ to_breadcrumbs (components "/x/y")
     = [mkBreadcrumb "" ""; mkBreadcrumb "x" "x"; mkBreadcrumb "y" "x/y"].
Proof.
  assert (H : Forall (fun x => x <> "") ["x"; "y"]) by (repeat constructor; discriminate).
  split; [exact H|].
  destruct (X_breadcrumbs_outside_root ["x"; "y"] H) as [H1 H2].
  split; [exact H1 | exact H2].
Defined.

Lemma X_write_failures_witness :
  visit_children generate_index root_path sample_items [] []
  = (fst (visit_children generate_index root_path sample_items [] []),
     Ok (fst (sample_html_split), snd (sample_html_split)))
  /\ snd (generate_index root_path (FDir (Some (mkMeta 0 1)) true false true sample_items))
     = Err WriteFailed.
Proof.
  assert (Hv : visit_children generate_index root_path sample_items [] []
               = (fst (visit_children generate_index root_path sample_items [] []),
                  Ok (fst (sample_html_split), snd (sample_html_split)))) by reflexivity.
  split; [exact Hv|].
  exact (proj1 (proj1 (X_write_failures root_path (Some (mkMeta 0 1)) false true sample_items
                         _ _ Hv) eq_refl)).
Defined.
